(** * Admin dashboard component: server-driven UI builders and handlers

    A shallow embedding of [app/ui_specs.py] (the three page builders) and of
    the request handlers of [app/main.py] that the properties below concern.

    - Python objects that flow through the builders (JSON-like data) are the
      inductive type [value]; a [dict] is an association list in insertion
      order, as a dict literal lists its entries.
    - Python exceptions are an explicit error monad [result].
    - [int / int], [float * int] and [round(float)] are modelled on the
      binary64 operations of the Standard Library's [SpecFloat]. *)

From Stdlib Require Import ZArith List String Ascii Bool Lia.
From Stdlib Require Import Floats.SpecFloat.
Import ListNotations.

Open Scope string_scope.
Open Scope list_scope.
Open Scope Z_scope.

(** ** Python values *)

Unset Elimination Schemes.

Inductive value : Type :=
| VNone
| VBool (b : bool)
| VInt (n : Z)
| VFloat (x : spec_float)
| VStr (s : string)
| VList (l : list value)
| VDict (d : list (string * value)).

Set Elimination Schemes.

(** [dict[str, Any]] *)
Definition dict : Type := list (string * value).

Coercion VStr : string >-> value.
Coercion VBool : bool >-> value.
Coercion VInt : Z >-> value.

(** An entry ["key": v] of a dict literal. *)
Notation "k ~> v" := (@pair string value k v) (at level 60, no associativity).

(** ** Exceptions *)

Inductive exn : Type :=
| ZeroDivisionError
| OverflowError
| ValueError
| AttributeError
| JSONDecodeError                       (* json.JSONDecodeError, a ValueError *)
| HTTPError (msg : string)              (* httpx.HTTPError and its subclasses *)
| OtherError (msg : string)             (* any other subclass of Exception *)
| HTTPException (status_code : Z) (detail : value).   (* fastapi.HTTPException *)

(** What an awaited call of the httpx client can raise: an [httpx.HTTPError]
    (timeouts, connection and other transport or request errors) or an
    exception outside that class (such as [httpx.InvalidURL]). *)
Inductive client_error : Type :=
| ClientHTTPError (msg : string)
| ClientOtherError (msg : string).

Inductive result (A : Type) : Type :=
| Ok (a : A)
| Raise (e : exn).

Arguments Ok {A} a.
Arguments Raise {A} e.

Definition bind {A B : Type} (m : result A) (k : A -> result B) : result B :=
  match m with
  | Ok a => k a
  | Raise e => Raise e
  end.

Notation "x <- m ;; k" := (bind m (fun x => k))
  (at level 61, m at next level, right associativity).

(** ** Python built-ins used by the builders *)

Module Py.

(** *** dict and list access *)

Fixpoint lookup (k : string) (d : dict) : option value :=
  match d with
  | [] => None
  | (k', v) :: rest => if String.eqb k' k then Some v else lookup k rest
  end.

(** [d.get(k, default)] *)
Definition get (d : dict) (k : string) (default : value) : value :=
  match lookup k d with
  | Some v => v
  | None => default
  end.

(** [v[k]] for a dict [v]; [None] stands for the [KeyError]/[TypeError]. *)
Definition item (v : value) (k : string) : option value :=
  match v with
  | VDict d => lookup k d
  | _ => None
  end.

(** [v[i]] for a list [v] and [i >= 0]. *)
Definition index (v : value) (i : nat) : option value :=
  match v with
  | VList l => nth_error l i
  | _ => None
  end.

(** [needle in hay] on strings. *)
Fixpoint contains (needle hay : string) : bool :=
  String.prefix needle hay ||
  match hay with
  | EmptyString => false
  | String _ hay' => contains needle hay'
  end.

(** *** binary64 arithmetic *)

Definition prec : Z := 53.
Definition emax : Z := 1024.

(** [float(n)]: nearest binary64, [OverflowError] when out of range. *)
Definition float_of_int (n : Z) : result spec_float :=
  match binary_normalize prec emax n 0 false with
  | S754_infinity _ => Raise OverflowError
  | x => Ok x
  end.

(** [a / b] on ints: the correctly rounded quotient. *)
Definition int_true_divide (a b : Z) : result spec_float :=
  if b =? 0 then Raise ZeroDivisionError
  else
    match a with
    | Z0 => Ok (S754_zero (b <? 0))
    | _ =>
        match SFdiv prec emax
                (S754_finite (a <? 0) (Z.to_pos (Z.abs a)) 0)
                (S754_finite (b <? 0) (Z.to_pos (Z.abs b)) 0) with
        | S754_infinity _ => Raise OverflowError
        | q => Ok q
        end
    end.

(** [x * n] for a float [x] and an int [n]. *)
Definition float_mul_int (x : spec_float) (n : Z) : result spec_float :=
  y <- float_of_int n ;;
  Ok (SFmul prec emax x y).

(** The integer nearest to [m * 2^e], ties to the even one. *)
Definition round_half_even (m e : Z) : Z :=
  match e with
  | Z0 => m
  | Zpos _ => m * 2 ^ e
  | Zneg p =>
      let d := 2 ^ Zpos p in
      let q := m / d in
      match (2 * (m mod d)) ?= d with
      | Lt => q
      | Gt => q + 1
      | Eq => if Z.even q then q else q + 1
      end
  end.

(** [round(x)] with one argument: an int, ties to even. *)
Definition round (x : spec_float) : result Z :=
  match x with
  | S754_zero _ => Ok 0
  | S754_infinity _ => Raise OverflowError
  | S754_nan => Raise ValueError
  | S754_finite s m e => Ok (cond_Zopp s (round_half_even (Zpos m) e))
  end.

End Py.

(** ** The page builders ([app/ui_specs.py]) *)

Section Builders.

(** Python's [str()] on an object that is not itself a string, as an
    f-string applies it to an interpolated value.  The builders never look
    at the text it yields, so it is left abstract. *)
Variable py_str : value -> string.

(** [f"{v}"] *)
Definition format (v : value) : string :=
  match v with
  | VStr s => s
  | _ => py_str v
  end.

(** [round(verified_users / total_users * 100) if total_users > 0 else 0] *)
Definition verified_change (total_users verified_users : Z) : result Z :=
  if total_users >? 0 then
    q <- Py.int_true_divide verified_users total_users ;;
    p <- Py.float_mul_int q 100 ;;
    Py.round p
  else Ok 0.

(** Generate the main dashboard page UI spec.  The only expression of the
    literal that can raise is the one of ["change"]; it is evaluated first
    and the literal is built around its value. *)
Definition get_dashboard_spec (total_users verified_users : Z)
    (recent_users : list dict) : result value :=
  change <- verified_change total_users verified_users ;;
  Ok (VDict [
    "type" ~> "Page";
    "title" ~> "Admin Dashboard";
    "description" ~> "Overview of your application";
    "actions" ~> VList [
      VDict [
        "type" ~> "Button";
        "label" ~> "Add User";
        "variant" ~> "primary";
        "icon" ~> "+";
        "onClick" ~> VDict [
          "type" ~> "openModal";
          "modal" ~> VDict [
            "type" ~> "Modal";
            "title" ~> "Add New User";
            "size" ~> "md";
            "children" ~> VList [
              VDict [
                "type" ~> "Form";
                "endpoint" ~> "/api/users";
                "method" ~> "POST";
                "submitText" ~> "Create User";
                "cancelText" ~> "Cancel";
                "fields" ~> VList [
                  VDict [
                    "type" ~> "TextField";
                    "name" ~> "email";
                    "label" ~> "Email";
                    "inputType" ~> "email";
                    "required" ~> true;
                    "placeholder" ~> "user@example.com"
                  ];
                  VDict [
                    "type" ~> "TextField";
                    "name" ~> "password";
                    "label" ~> "Password";
                    "inputType" ~> "password";
                    "required" ~> true
                  ];
                  VDict [
                    "type" ~> "Checkbox";
                    "name" ~> "email_verified";
                    "label" ~> "Email Verified";
                    "checkboxLabel" ~> "Mark email as verified"
                  ]
                ];
                "onSuccess" ~> VDict ["type" ~> "refresh"]
              ]
            ]
          ]
        ]
      ]
    ];
    "children" ~> VList [
      (* Stats Grid *)
      VDict [
        "type" ~> "StatsGrid";
        "columns" ~> 4;
        "items" ~> VList [
          VDict [
            "label" ~> "Total Users";
            "value" ~> total_users;
            "icon" ~> "👥";
            "onClick" ~> VDict ["type" ~> "navigate"; "to" ~> "/admin/users"]
          ];
          VDict [
            "label" ~> "Verified";
            "value" ~> verified_users;
            "icon" ~> "✓";
            "change" ~> change;
            "changeType" ~> "neutral"
          ];
          VDict [
            "label" ~> "Unverified";
            "value" ~> (total_users - verified_users);
            "icon" ~> "⏳"
          ];
          VDict [
            "label" ~> "Active Today";
            "value" ~> "—";
            "icon" ~> "📊"
          ]
        ]
      ];
      (* Recent Users Card *)
      VDict [
        "type" ~> "Card";
        "title" ~> "Recent Users";
        "subtitle" ~> "Latest registered users";
        "className" ~> "mt-6";
        "children" ~> VList [
          VDict [
            "type" ~> "DataTable";
            "endpoint" ~> "/api/users";
            "pagination" ~> false;
            "searchable" ~> false;
            "columns" ~> VList [
              VDict ["key" ~> "email"; "label" ~> "Email"];
              VDict [
                "key" ~> "email_verified";
                "label" ~> "Verified";
                "type" ~> "boolean"
              ];
              VDict [
                "key" ~> "created_at";
                "label" ~> "Created";
                "type" ~> "datetime"
              ]
            ];
            "rowActions" ~> VList [
              VDict [
                "type" ~> "Button";
                "label" ~> "View";
                "variant" ~> "ghost";
                "size" ~> "sm";
                "onClick" ~> VDict [
                  "type" ~> "navigate";
                  "to" ~> "/admin/users/{email}"
                ]
              ]
            ];
            "emptyMessage" ~> "No users yet"
          ]
        ];
        "footer" ~> VList [
          VDict [
            "type" ~> "Link";
            "label" ~> "View all users →";
            "href" ~> "/admin/users"
          ]
        ]
      ];
      (* Quick Actions Card *)
      VDict [
        "type" ~> "Card";
        "title" ~> "Quick Actions";
        "className" ~> "mt-6";
        "children" ~> VList [
          VDict [
            "type" ~> "Row";
            "gap" ~> 12;
            "children" ~> VList [
              VDict [
                "type" ~> "Button";
                "label" ~> "Export Users";
                "variant" ~> "outline";
                "onClick" ~> VDict [
                  "type" ~> "api";
                  "method" ~> "GET";
                  "endpoint" ~> "/api/users/export"
                ]
              ];
              VDict [
                "type" ~> "Button";
                "label" ~> "Invite Users";
                "variant" ~> "outline";
                "onClick" ~> VDict [
                  "type" ~> "openModal";
                  "modal" ~> VDict [
                    "type" ~> "Modal";
                    "title" ~> "Invite Users";
                    "children" ~> VList [
                      VDict [
                        "type" ~> "Text";
                        "content" ~> "Bulk invite functionality coming soon.";
                        "variant" ~> "muted"
                      ]
                    ]
                  ]
                ]
              ];
              VDict [
                "type" ~> "Button";
                "label" ~> "View Logs";
                "variant" ~> "outline";
                "onClick" ~> VDict ["type" ~> "navigate"; "to" ~> "/admin/logs"]
              ]
            ]
          ]
        ]
      ]
    ]
  ]).

(** Generate the users list page UI spec. *)
Definition get_users_list_spec : value :=
  VDict [
    "type" ~> "Page";
    "title" ~> "Users";
    "description" ~> "Manage user accounts";
    "actions" ~> VList [
      VDict [
        "type" ~> "Button";
        "label" ~> "Add User";
        "variant" ~> "primary";
        "icon" ~> "+";
        "onClick" ~> VDict [
          "type" ~> "openModal";
          "modal" ~> VDict [
            "type" ~> "Modal";
            "title" ~> "Add New User";
            "size" ~> "md";
            "children" ~> VList [
              VDict [
                "type" ~> "Form";
                "endpoint" ~> "/api/users";
                "method" ~> "POST";
                "submitText" ~> "Create User";
                "cancelText" ~> "Cancel";
                "fields" ~> VList [
                  VDict [
                    "type" ~> "TextField";
                    "name" ~> "email";
                    "label" ~> "Email";
                    "inputType" ~> "email";
                    "required" ~> true
                  ];
                  VDict [
                    "type" ~> "TextField";
                    "name" ~> "password";
                    "label" ~> "Password";
                    "inputType" ~> "password";
                    "required" ~> true
                  ];
                  VDict [
                    "type" ~> "Checkbox";
                    "name" ~> "email_verified";
                    "checkboxLabel" ~> "Mark email as verified"
                  ]
                ];
                "onSuccess" ~> VDict ["type" ~> "refresh"]
              ]
            ]
          ]
        ]
      ]
    ];
    "children" ~> VList [
      VDict [
        "type" ~> "Card";
        "children" ~> VList [
          VDict [
            "type" ~> "DataTable";
            "endpoint" ~> "/api/users";
            "pagination" ~> true;
            "pageSize" ~> 20;
            "searchable" ~> true;
            "sortable" ~> true;
            "columns" ~> VList [
              VDict ["key" ~> "email"; "label" ~> "Email"; "sortable" ~> true];
              VDict [
                "key" ~> "email_verified";
                "label" ~> "Verified";
                "type" ~> "boolean";
                "sortable" ~> true
              ];
              VDict [
                "key" ~> "two_factor_enabled";
                "label" ~> "2FA";
                "type" ~> "boolean"
              ];
              VDict [
                "key" ~> "created_at";
                "label" ~> "Created";
                "type" ~> "datetime";
                "sortable" ~> true
              ];
              VDict [
                "key" ~> "updated_at";
                "label" ~> "Updated";
                "type" ~> "datetime"
              ]
            ];
            "rowActions" ~> VList [
              VDict [
                "type" ~> "Button";
                "label" ~> "Edit";
                "variant" ~> "ghost";
                "size" ~> "sm";
                "onClick" ~> VDict [
                  "type" ~> "navigate";
                  "to" ~> "/admin/users/{email}"
                ]
              ];
              VDict [
                "type" ~> "Button";
                "label" ~> "Delete";
                "variant" ~> "danger";
                "size" ~> "sm";
                "onClick" ~> VDict [
                  "type" ~> "api";
                  "method" ~> "DELETE";
                  "endpoint" ~> "/api/users/{email}";
                  "confirm" ~> "Are you sure you want to delete this user?";
                  "onSuccess" ~> VDict ["type" ~> "refresh"]
                ]
              ]
            ];
            "emptyMessage" ~> "No users found"
          ]
        ]
      ]
    ]
  ].

(** Generate the user edit page UI spec. *)
Definition get_user_edit_spec (user : dict) : value :=
  VDict [
    "type" ~> "Page";
    "title" ~> "Edit User";
    "description" ~> Py.get user "email" "";
    "actions" ~> VList [
      VDict [
        "type" ~> "Button";
        "label" ~> "Back to Users";
        "variant" ~> "outline";
        "onClick" ~> VDict ["type" ~> "navigate"; "to" ~> "/admin/users"]
      ]
    ];
    "children" ~> VList [
      VDict [
        "type" ~> "Card";
        "title" ~> "User Details";
        "children" ~> VList [
          VDict [
            "type" ~> "Form";
            "endpoint" ~> String.append "/api/users/" (format (Py.get user "email" ""));
            "method" ~> "PUT";
            "submitText" ~> "Save Changes";
            "initialValues" ~> VDict [
              "email_verified" ~> Py.get user "email_verified" false;
              "two_factor_enabled" ~> Py.get user "two_factor_enabled" false
            ];
            "fields" ~> VList [
              VDict [
                "type" ~> "TextField";
                "name" ~> "email";
                "label" ~> "Email";
                "inputType" ~> "email";
                "readOnly" ~> true;
                "placeholder" ~> Py.get user "email" ""
              ];
              VDict [
                "type" ~> "Checkbox";
                "name" ~> "email_verified";
                "label" ~> "Email Status";
                "checkboxLabel" ~> "Email verified"
              ];
              VDict [
                "type" ~> "Checkbox";
                "name" ~> "two_factor_enabled";
                "label" ~> "Two-Factor Auth";
                "checkboxLabel" ~> "2FA enabled"
              ]
            ];
            "onSuccess" ~> VDict [
              "type" ~> "navigate";
              "to" ~> "/admin/users"
            ]
          ]
        ]
      ];
      VDict [
        "type" ~> "Card";
        "title" ~> "Metadata";
        "className" ~> "mt-6";
        "children" ~> VList [
          VDict [
            "type" ~> "Row";
            "gap" ~> 24;
            "children" ~> VList [
              VDict [
                "type" ~> "Column";
                "children" ~> VList [
                  VDict [
                    "type" ~> "Text";
                    "content" ~> "Created";
                    "variant" ~> "small"
                  ];
                  VDict [
                    "type" ~> "Text";
                    "content" ~> Py.get user "created_at" "—";
                    "variant" ~> "body"
                  ]
                ]
              ];
              VDict [
                "type" ~> "Column";
                "children" ~> VList [
                  VDict [
                    "type" ~> "Text";
                    "content" ~> "Last Updated";
                    "variant" ~> "small"
                  ];
                  VDict [
                    "type" ~> "Text";
                    "content" ~> Py.get user "updated_at" "—";
                    "variant" ~> "body"
                  ]
                ]
              ]
            ]
          ]
        ]
      ];
      VDict [
        "type" ~> "Card";
        "title" ~> "Danger Zone";
        "className" ~> "mt-6";
        "children" ~> VList [
          VDict [
            "type" ~> "Alert";
            "variant" ~> "warning";
            "message" ~> "Deleting a user is permanent and cannot be undone."
          ];
          VDict [
            "type" ~> "Button";
            "label" ~> "Delete User";
            "variant" ~> "danger";
            "className" ~> "mt-4";
            "onClick" ~> VDict [
              "type" ~> "api";
              "method" ~> "DELETE";
              "endpoint" ~> String.append "/api/users/" (format (Py.get user "email" ""));
              "confirm" ~>
                String.append "Are you sure you want to delete "
                  (String.append (format (Py.get user "email" "this user")) "?");
              "onSuccess" ~> VDict ["type" ~> "navigate"; "to" ~> "/admin/users"]
            ]
          ]
        ]
      ]
    ]
  ].

End Builders.

(** ** The request handlers ([app/main.py]) *)

(** An [httpx.Response]: its status code and its body as [response.json()]
    parses it, [None] when the body is not JSON. *)
Record Response : Type := {
  status_code : Z;
  body : option value
}.

(** The auth module's client as the handlers use it: each awaited call
    either raises or returns a response. *)
Record AsyncClient : Type := {
  client_get : string -> client_error + Response;
  client_delete : string -> client_error + Response
}.

(** [await call] *)
Definition await (call : client_error + Response) : result Response :=
  match call with
  | inl (ClientHTTPError msg) => Raise (HTTPError msg)
  | inl (ClientOtherError msg) => Raise (OtherError msg)
  | inr response => Ok response
  end.

(** [response.json()] *)
Definition json (response : Response) : result value :=
  match body response with
  | Some v => Ok v
  | None => Raise JSONDecodeError
  end.

(** [try: body except <class> as e: handler] *)
Definition try_except {A : Type} (body : result A) (catches : exn -> bool)
    (handler : exn -> result A) : result A :=
  match body with
  | Ok a => Ok a
  | Raise e => if catches e then handler e else Raise e
  end.

(** [isinstance(e, httpx.HTTPError)] *)
Definition is_httpx_HTTPError (e : exn) : bool :=
  match e with
  | HTTPError _ => true
  | _ => false
  end.

(** [isinstance(e, Exception)] *)
Definition is_Exception (e : exn) : bool := true.

(** [str(e)] *)
Definition str_exn (e : exn) : string :=
  match e with
  | HTTPError msg => msg
  | OtherError msg => msg
  | _ => ""
  end.

(** The receiver of a [.get(key, default)] call has to be a dict. *)
Definition as_dict (v : value) : result dict :=
  match v with
  | VDict d => Ok d
  | _ => Raise AttributeError
  end.

(** [status_code in codes] *)
Definition status_in (s : Z) (codes : list Z) : bool := existsb (Z.eqb s) codes.

(** *** What the framework does around a handler *)

(** The declared return types of the routes: [dict[str, Any]],
    [dict[str, str]] and [list[T]]. *)
Definition dict_any (v : value) : bool :=
  match v with
  | VDict _ => true
  | _ => false
  end.

Definition dict_str (v : value) : bool :=
  match v with
  | VDict d => forallb (fun kv => match snd kv with VStr _ => true | _ => false end) d
  | _ => false
  end.

Definition list_of (fits : value -> bool) (v : value) : bool :=
  match v with
  | VList l => forallb fits l
  | _ => false
  end.

(** [fastapi.exceptions.ResponseValidationError] *)
Definition ResponseValidationError : exn := OtherError "ResponseValidationError".

(** A route declared [-> T]: what its body returns is validated against [T],
    and a value that does not fit raises [ResponseValidationError] after the
    body, outside any of its [try] blocks. *)
Definition validated (fits : value -> bool) (outcome : result value) : result value :=
  match outcome with
  | Ok v => if fits v then Ok v else Raise ResponseValidationError
  | Raise e => Raise e
  end.

(** [raise HTTPException(status_code=status_code, detail=detail)].  The
    constructor replaces a detail of [None] by the standard phrase of the
    status, [http.HTTPStatus(status_code).phrase], and [http.HTTPStatus]
    raises [ValueError] for a code it does not know.  The table of phrases
    belongs to the Python library and is a parameter: [status_phrase s] is
    the phrase of [s], [None] when [s] is not in the table. *)
Definition raise_HTTPException {A : Type} (status_phrase : Z -> option string)
    (status_code : Z) (detail : value) : result A :=
  match detail with
  | VNone =>
      match status_phrase status_code with
      | Some phrase => Raise (HTTPException status_code (VStr phrase))
      | None => Raise ValueError
      end
  | _ => Raise (HTTPException status_code detail)
  end.

Section Handlers.

Variable py_str : value -> string.
Variable status_phrase : Z -> option string.

(** [GET /ui/users] *)
Definition ui_users : result value := Ok get_users_list_spec.

(** [GET /ui/users/{user_id}] *)
Definition ui_user_edit (client : AsyncClient) (user_id : string) : result value :=
  user <- try_except
            (response <- await (client_get client (String.append "/users/" user_id)) ;;
             if negb (status_code response =? 200)
             then Raise (HTTPException 404 "User not found")
             else json response)
            is_httpx_HTTPError
            (fun e => Raise (HTTPException 502
                               (String.append "Auth service error: " (str_exn e)))) ;;
  user <- as_dict user ;;
  Ok (get_user_edit_spec py_str user).

(** [GET /api/users], declared [-> list[dict[str, Any]]] *)
Definition api_users (client : AsyncClient) : result value :=
  validated (list_of dict_any)
    (try_except
       (response <- await (client_get client "/users") ;;
        if negb (status_code response =? 200)
        then Ok (VList [])
        else json response)
       is_Exception
       (fun _ => Ok (VList []))).

(** [DELETE /api/users/{email}], declared [-> dict[str, str]] *)
Definition api_delete_user (client : AsyncClient) (email : string) : result value :=
  validated dict_str
    (try_except
       (response <- await (client_delete client (String.append "/users/" email)) ;;
        if negb (status_in (status_code response) [200; 204])
        then
          payload <- json response ;;
          payload <- as_dict payload ;;
          let error := Py.get payload "detail" "Delete failed" in
          raise_HTTPException status_phrase (status_code response) error
        else Ok (VDict ["status" ~> "deleted"]))
       is_httpx_HTTPError
       (fun e => Raise (HTTPException 502
                          (String.append "Auth service error: " (str_exn e))))).

End Handlers.

(** A client whose every call has the same outcome, whatever the path. *)
Definition mock_client (outcome : client_error + Response) : AsyncClient :=
  {| client_get := fun _ => outcome; client_delete := fun _ => outcome |}.

(** The upstream answers with status [s] and parsed body [b]. *)
Definition answers (s : Z) (b : option value) : client_error + Response :=
  inr {| status_code := s; body := b |}.

(** The upstream call raises an [httpx.HTTPError]. *)
Definition fails (msg : string) : client_error + Response :=
  inl (ClientHTTPError msg).

(** A record with nothing but its email, and a [str()] for the examples. *)
Definition sample_user : dict := ["email" ~> "a@b.com"].
Definition sample_str (v : value) : string := "".


(** The status the framework sends for a route's outcome: 200 for a returned
    value, the status of a raised [HTTPException], and 500 for any other
    exception, [ResponseValidationError] included.  A returned value has
    passed the validation against the declared return type: the routes whose
    body can return a value that does not fit are [validated], and the bodies
    of the others return nothing but dict literals. *)
Definition http_status (r : result value) : Z :=
  match r with
  | Ok _ => 200
  | Raise (HTTPException s _) => s
  | Raise _ => 500
  end.

(** ** The Node Schema *)

Definition registered_node_types : list string :=
  ["Page"; "Card"; "Form"; "DataTable"; "Button"; "StatsGrid"; "Modal";
   "TextField"; "Checkbox"; "Alert"; "Text"; "Row"; "Column"; "Link"].

Definition registered_action_types : list string :=
  ["navigate"; "openModal"; "api"; "refresh"].

Definition mem (s : string) (l : list string) : bool := existsb (String.eqb s) l.

(** The [type] entry of [d] is a string of [types]. *)
Definition type_in (types : list string) (d : dict) : bool :=
  match Py.lookup "type" d with
  | Some (VStr t) => mem t types
  | _ => false
  end.

Definition nonempty_name (d : dict) : bool :=
  match Py.lookup "name" d with
  | Some (VStr s) => negb (String.eqb s "")
  | _ => false
  end.

(** What a dict of a document is: a node, an entry of a Form's [fields]
    (a node that is also a FieldSpec), an item of a StatsGrid, or an action. *)
Inductive role : Type := Node | Field | Item | Action.

(** Which entries of a dict of role [r] hold further nodes or actions: the
    role of what they hold and whether they hold a list of them.  Every other
    entry (texts, flags, endpoints, column specs, initial values) is data. *)
Definition child_role (r : role) (key : string) : option (role * bool) :=
  match r with
  | Node | Field =>
      if mem key ["actions"; "children"; "footer"; "rowActions"] then Some (Node, true)
      else if String.eqb key "fields" then Some (Field, true)
      else if String.eqb key "items" then Some (Item, true)
      else if mem key ["onClick"; "onSuccess"] then Some (Action, false)
      else None
  | Item =>
      if String.eqb key "onClick" then Some (Action, false) else None
  | Action =>
      if String.eqb key "modal" then Some (Node, false)
      else if String.eqb key "onSuccess" then Some (Action, false)
      else None
  end.

(** What a dict of role [r] has to satisfy by itself. *)
Definition own_ok (r : role) (d : dict) : bool :=
  match r with
  | Node => type_in registered_node_types d
  | Field => type_in registered_node_types d && nonempty_name d
  | Item => true
  | Action => type_in registered_action_types d
  end.

(** Recursive well-formedness of [v] in role [r]. *)
Fixpoint well_formed (r : role) (v : value) {struct v} : bool :=
  match v with
  | VDict d =>
      own_ok r d &&
      (fix entries (d' : dict) : bool :=
         match d' with
         | [] => true
         | (k, x) :: rest =>
             match child_role r k with
             | None => true
             | Some (r', false) => well_formed r' x
             | Some (r', true) =>
                 match x with
                 | VList l =>
                     (fix all (l' : list value) : bool :=
                        match l' with
                        | [] => true
                        | y :: l'' => well_formed r' y && all l''
                        end) l
                 | _ => false
                 end
             end && entries rest
         end) d
  | _ => false
  end.

(** The same, told by occurrence: [part r v r' v'] when [v'] occurs inside
    [v], a value of role [r], at a place of role [r']. *)
Inductive part : role -> value -> role -> value -> Prop :=
| part_here (r : role) (v : value) :
    part r v r v
| part_entry (r : role) (d : dict) (k : string) (x : value)
    (r1 r' : role) (v' : value) :
    In (k, x) d -> child_role r k = Some (r1, false) ->
    part r1 x r' v' ->
    part r (VDict d) r' v'
| part_element (r : role) (d : dict) (k : string) (l : list value) (y : value)
    (r1 r' : role) (v' : value) :
    In (k, VList l) d -> child_role r k = Some (r1, true) -> In y l ->
    part r1 y r' v' ->
    part r (VDict d) r' v'.

(** Every node of [doc] has a registered type, every action a registered
    action type, every field of a form also a non-empty name. *)
Definition every_part_ok (doc : value) : Prop :=
  forall (r : role) (v : value),
    part Node doc r v ->
    exists d, v = VDict d /\ own_ok r d = true.

(** ** Reading a document *)

(** [c[key] == s] *)
Definition has_entry (key s : string) (c : value) : bool :=
  match Py.item c key with
  | Some (VStr s') => String.eqb s' s
  | _ => false
  end.

(** [next(c for c in l if c[key] == s)] *)
Definition find_by (key s : string) (l : value) : option value :=
  match l with
  | VList xs => find (has_entry key s) xs
  | _ => None
  end.

(** One step into a document: [v[k]], [v[i]], or the first element of the
    list [v] whose entry [key] is [s]. *)
Inductive step : Type :=
| Key (k : string)
| Idx (i : nat)
| Find (key s : string).

Definition take_step (v : value) (st : step) : option value :=
  match st with
  | Key k => Py.item v k
  | Idx i => Py.index v i
  | Find key s => find_by key s v
  end.

Fixpoint at_path (v : value) (p : list step) : option value :=
  match p with
  | [] => Some v
  | st :: p' =>
      match take_step v st with
      | Some x => at_path x p'
      | None => None
      end
  end.


(** [[c[key] for c in l]] when every [c[key]] is a string. *)
Fixpoint strings_of (key : string) (l : list value) : option (list string) :=
  match l with
  | [] => Some []
  | c :: l' =>
      match Py.item c key, strings_of key l' with
      | Some (VStr s), Some ss => Some (s :: ss)
      | _, _ => None
      end
  end.

(** [del v[s1]...[sn][key]]: the document without that one entry. *)
Fixpoint remove_key (key : string) (d : dict) : dict :=
  match d with
  | [] => []
  | (k, x) :: rest =>
      if String.eqb k key then remove_key key rest else (k, x) :: remove_key key rest
  end.

Fixpoint update_key (key : string) (f : value -> value) (d : dict) : dict :=
  match d with
  | [] => []
  | (k, x) :: rest =>
      if String.eqb k key then (k, f x) :: rest else (k, x) :: update_key key f rest
  end.

Fixpoint update_nth (i : nat) (f : value -> value) (l : list value) : list value :=
  match l, i with
  | [], _ => []
  | x :: l', O => f x :: l'
  | x :: l', S i' => x :: update_nth i' f l'
  end.

Fixpoint update_first (p : value -> bool) (f : value -> value) (l : list value)
    : list value :=
  match l with
  | [] => []
  | x :: l' => if p x then f x :: l' else x :: update_first p f l'
  end.

Fixpoint delete_at (p : list step) (key : string) (v : value) : value :=
  match p with
  | [] =>
      match v with
      | VDict d => VDict (remove_key key d)
      | _ => v
      end
  | Key k :: p' =>
      match v with
      | VDict d => VDict (update_key k (delete_at p' key) d)
      | _ => v
      end
  | Idx i :: p' =>
      match v with
      | VList l => VList (update_nth i (delete_at p' key) l)
      | _ => v
      end
  | Find k s :: p' =>
      match v with
      | VList l => VList (update_first (has_entry k s) (delete_at p' key) l)
      | _ => v
      end
  end.

(** ** Floats that are finite and small *)

(** A float is a zero or finite with magnitude below [2 ^ B]. *)
Definition below (B : Z) (x : spec_float) : Prop :=
  match x with
  | S754_zero _ => True
  | S754_finite _ m e => Zdigits2 (Z.pos m) + e <= B
  | _ => False
  end.

(** ** Places in the three documents *)

(** [next(c for c in spec["children"] if c["type"] == "StatsGrid")["items"]] *)
Definition stats_items : list step :=
  [Key "children"; Find "type" "StatsGrid"; Key "items"].

(** The entry [field] of the StatsGrid item labelled [label]. *)
Definition stat (label field : string) : list step :=
  List.app stats_items [Find "label" label; Key field].

(** [spec["children"][0]["children"][0]], the DataTable of the users list. *)
Definition users_table : list step :=
  [Key "children"; Idx 0; Key "children"; Idx 0].

(** The first child of type [ty] of the card titled [title]. *)
Definition in_card (title ty : string) : list step :=
  [Key "children"; Find "title" title; Key "children"; Find "type" ty].

(** The [i]-th column of the Metadata card's row, and its second text. *)
Definition metadata_text (i j : nat) : list step :=
  List.app (in_card "Metadata" "Row")
           [Key "children"; Idx i; Key "children"; Idx j; Key "content"].

(** The action bound to the Danger Zone's Delete button. *)
Definition danger_delete : list step :=
  [Key "children"; Find "title" "Danger Zone"; Key "children";
   Find "label" "Delete User"; Key "onClick"].

(** [spec["actions"][0]], the page's first action button. *)
Definition first_action : list step := [Key "actions"; Idx 0].

(** From an "Add User" button to the [i]-th field of its modal's form. *)
Definition add_user_field (i : nat) : list step :=
  [Key "onClick"; Key "modal"; Key "children"; Idx 0; Key "fields"; Idx i].

(** [round(verified_users / total_users * 100)] *)
Definition percentage (verified_users total_users : Z) : result Z :=
  q <- Py.int_true_divide verified_users total_users ;;
  p <- Py.float_mul_int q 100 ;;
  Py.round p.

(** ** The remaining handlers ([app/main.py]) *)

(** [bool(v)] *)
Definition truthy (v : value) : bool :=
  match v with
  | VNone => false
  | VBool b => b
  | VInt n => negb (n =? 0)
  | VFloat (S754_zero _) => false
  | VFloat _ => true
  | VStr s => negb (String.eqb s "")
  | VList l => match l with [] => false | _ :: _ => true end
  | VDict d => match d with [] => false | _ :: _ => true end
  end.

(** A byte [10xxxxxx], which continues a character of a UTF-8 string. *)
Definition continuation (c : ascii) : bool :=
  match c with
  | Ascii _ _ _ _ _ _ b6 b7 => b7 && negb b6
  end.

(** The number of characters of a string held as UTF-8. *)
Fixpoint code_points (s : string) : Z :=
  match s with
  | EmptyString => 0
  | String c s' => (if continuation c then 0 else 1) + code_points s'
  end.

(** The characters of a string held as UTF-8, each a string of its own. *)
Fixpoint characters (s : string) : list string :=
  match s with
  | EmptyString => []
  | String c s' =>
      let rest := characters s' in
      let joins := match s' with
                   | String c' _ => continuation c'
                   | EmptyString => false
                   end in
      match rest with
      | x :: xs => if joins then String c x :: xs else String c EmptyString :: rest
      | [] => [String c EmptyString]
      end
  end.

Definition TypeError (msg : string) : exn :=
  OtherError (String.append "TypeError: " msg).

(** [len(v)] *)
Definition len (v : value) : result Z :=
  match v with
  | VList l => Ok (Z.of_nat (List.length l))
  | VDict d => Ok (Z.of_nat (List.length d))
  | VStr s => Ok (code_points s)
  | _ => Raise (TypeError "object has no len()")
  end.

(** What [for u in v] goes through: the elements of a list, the keys of a
    dict, the characters of a string. *)
Definition iterate (v : value) : result (list value) :=
  match v with
  | VList l => Ok l
  | VDict d => Ok (map (fun kv => VStr (fst kv)) d)
  | VStr s => Ok (map VStr (characters s))
  | _ => Raise (TypeError "object is not iterable")
  end.

(** [sum(1 for u in items if p(u.get(key)))] *)
Fixpoint count_where (p : value -> bool) (key : string) (items : list value)
    : result Z :=
  match items with
  | [] => Ok 0
  | u :: rest =>
      u <- as_dict u ;;
      n <- count_where p key rest ;;
      Ok ((if p (Py.get u key VNone) then 1 else 0) + n)
  end.

(** [sum(1 for u in users if p(u.get(key)))] *)
Definition count_users (p : value -> bool) (key : string) (users : value)
    : result Z :=
  items <- iterate users ;;
  count_where p key items.

(** The dicts among the values of a list. *)
Fixpoint dicts (l : list value) : list dict :=
  match l with
  | [] => []
  | VDict d :: rest => d :: dicts rest
  | _ :: rest => dicts rest
  end.

(** [users[:5]] where the dashboard handler evaluates it: after the counts,
    so that a list holds nothing but dicts and a string is empty; a dict
    cannot be sliced. *)
Definition slice5 (users : value) : result (list dict) :=
  match users with
  | VList l => Ok (dicts (firstn 5 l))
  | VStr _ => Ok []
  | _ => Raise (TypeError "unhashable type: 'slice'")
  end.


(** [response.json() if response.status_code == 200 else []], and [[]] when
    anything is raised: the users as the dashboard and the statistics see
    them. *)
Definition fetch_users (client : AsyncClient) : value :=
  match try_except
          (response <- await (client_get client "/users") ;;
           if status_code response =? 200 then json response else Ok (VList []))
          is_Exception
          (fun _ => Ok (VList [])) with
  | Ok users => users
  | Raise _ => VList []
  end.

(** [GET /ui/dashboard] *)
Definition ui_dashboard (client : AsyncClient) : result value :=
  let users := fetch_users client in
  total_users <- len users ;;
  verified_users <- count_users truthy "email_verified" users ;;
  recent_users <- (if truthy users then slice5 users else Ok []) ;;
  get_dashboard_spec total_users verified_users recent_users.

(** [GET /api/stats] *)
Definition api_stats (client : AsyncClient) : result value :=
  let users := fetch_users client in
  total_users <- len users ;;
  verified_users <- count_users truthy "email_verified" users ;;
  unverified_users <- count_users (fun x => negb (truthy x)) "email_verified" users ;;
  two_factor_enabled <- count_users truthy "two_factor_enabled" users ;;
  Ok (VDict [
    "total_users" ~> total_users;
    "verified_users" ~> verified_users;
    "unverified_users" ~> unverified_users;
    "two_factor_enabled" ~> two_factor_enabled
  ]).

(** [GET /api/users/{email}], declared [-> dict[str, Any]] *)
Definition api_user (client : AsyncClient) (email : string) : result value :=
  validated dict_any
    (try_except
       (response <- await (client_get client (String.append "/users/" email)) ;;
        if negb (status_code response =? 200)
        then Raise (HTTPException 404 "User not found")
        else json response)
       is_httpx_HTTPError
       (fun e => Raise (HTTPException 502
                          (String.append "Auth service error: " (str_exn e))))).

Section SendingHandlers.

Variable status_phrase : Z -> option string.



End SendingHandlers.


(** ** More places in the edit page *)

(** The form of the User Details card and what it submits to. *)
Definition edit_form (field : string) : list step :=
  List.app (in_card "User Details" "Form") [Key field].

(** The read-only email field of that form. *)
Definition edit_form_email (field : string) : list step :=
  List.app (in_card "User Details" "Form") [Key "fields"; Idx 0; Key field].

(** An entry of the action of the Danger Zone's Delete button. *)
Definition danger_delete_entry (field : string) : list step :=
  List.app danger_delete [Key field].

(** ** Shapes of what the upstream sends *)

Definition is_dict (v : value) : bool :=
  match v with
  | VDict _ => true
  | _ => false
  end.

(** What the counts of the dashboard and of the statistics go through: a list
    of dicts, or an empty dict or string. *)
Definition countable (users : value) : bool :=
  match users with
  | VList l => forallb is_dict l
  | VDict [] => true
  | VStr EmptyString => true
  | _ => false
  end.

(** How many of the records have [p (record.get(key))]. *)
Definition count_true (p : value -> bool) (key : string) (records : list dict) : Z :=
  Z.of_nat (List.length (filter (fun d => p (Py.get d key VNone)) records)).

(** ** Shift records below a bound *)

(** Some bit that was shifted out, or the location the record started from,
    was not zero. *)
Definition inexact (r : shr_record) : bool := shr_r r || shr_s r.

(** The value a shift record stands for is at most [U]: its mantissa is, and
    is strictly below [U] when the record is inexact. *)
Definition under (U : Z) (r : shr_record) : Prop :=
  0 <= shr_m r <= U /\ (inexact r = true -> shr_m r < U).

(** What [binary_round_aux] returns for the mantissa and exponent it ends
    with. *)
Definition rounded (s : bool) (m e : Z) : spec_float :=
  match m with
  | Z0 => S754_zero s
  | Zpos p => if e <=? 971 then S754_finite s p e else S754_infinity s
  | Zneg _ => S754_nan
  end.

(** A float is a zero, or positive, finite and at most [c * 2 ^ k]. *)
Definition at_most (c k : Z) (x : spec_float) : Prop :=
  match x with
  | S754_zero _ => True
  | S754_finite false m e => e <= k /\ Z.pos m <= c * 2 ^ (k - e)
  | _ => False
  end.

(** * Properties *)

(** ** The binary64 arithmetic of the percentage never overflows *)

Module FloatFacts.

Lemma digits2_pos_size (p : positive) : digits2_pos p = Pos.size p.
Proof. induction p as [p IH | p IH | ]; simpl; congruence. Qed.

Lemma Zdigits2_nonneg (m : Z) : 0 <= Zdigits2 m.
Proof. destruct m; simpl; lia. Qed.

Lemma Zdigits2_gt (m : Z) : 0 <= m -> m < 2 ^ Zdigits2 m.
Proof.
  destruct m as [ | p | p]; intros Hm; [reflexivity | | lia].
  simpl Zdigits2. rewrite digits2_pos_size, <- Pos2Z.inj_pow.
  apply Pos2Z.pos_lt_pos, Pos.size_gt.
Qed.

Lemma Zdigits2_le (m k : Z) : 0 <= m -> 0 <= k -> m < 2 ^ k -> Zdigits2 m <= k.
Proof.
  destruct m as [ | p | p]; intros Hm Hk Hlt; [simpl; lia | | lia].
  simpl Zdigits2. rewrite digits2_pos_size.
  assert (Hsz : 2 ^ Z.pos (Pos.size p) <= 2 * Z.pos p).
  { rewrite <- Pos2Z.inj_pow. change (2 * Z.pos p) with (Z.pos p~0).
    apply Pos2Z.pos_le_pos, Pos.size_le. }
  assert (Hpow : 2 ^ Z.pos (Pos.size p) < 2 ^ (k + 1)).
  { rewrite Z.pow_add_r by lia. change (2 ^ 1) with 2. lia. }
  apply Z.pow_lt_mono_r_iff in Hpow; lia.
Qed.

Lemma Zdigits2_succ (m : Z) : 0 <= m -> Zdigits2 (m + 1) <= Zdigits2 m + 1.
Proof.
  intros Hm. pose proof (Zdigits2_nonneg m) as Hd.
  pose proof (Zdigits2_gt m Hm) as Hlt.
  apply Zdigits2_le; try lia.
  rewrite Z.pow_add_r by lia. change (2 ^ 1) with 2. lia.
Qed.

Lemma Zdigits2_mul (a b : Z) :
  0 <= a -> 0 <= b -> Zdigits2 (a * b) <= Zdigits2 a + Zdigits2 b.
Proof.
  intros Ha Hb.
  pose proof (Zdigits2_nonneg a) as Hda. pose proof (Zdigits2_nonneg b) as Hdb.
  pose proof (Zdigits2_gt a Ha) as Hla. pose proof (Zdigits2_gt b Hb) as Hlb.
  apply Zdigits2_le; try nia.
  rewrite Z.pow_add_r by lia. nia.
Qed.

(** One right shift drops one digit and keeps the mantissa non-negative. *)
Lemma shr_1_digits (r : shr_record) :
  Zdigits2 (shr_m (shr_1 r)) = Z.max 0 (Zdigits2 (shr_m r) - 1).
Proof.
  destruct r as [m b c]; destruct m as [ | p | p]; try destruct p;
    cbn [shr_1 shr_m Zdigits2 digits2_pos]; rewrite ?Pos2Z.inj_succ; lia.
Qed.

Lemma shr_1_nonneg (r : shr_record) : 0 <= shr_m r -> 0 <= shr_m (shr_1 r).
Proof.
  destruct r as [m b c]; destruct m as [ | p | p]; try destruct p; simpl; lia.
Qed.

Lemma iter_shr_1 (p : positive) : forall r : shr_record,
  0 <= shr_m r ->
  0 <= shr_m (iter_pos shr_1 p r) /\
  Zdigits2 (shr_m (iter_pos shr_1 p r)) = Z.max 0 (Zdigits2 (shr_m r) - Z.pos p).
Proof.
  induction p as [p IH | p IH | ]; intros r Hr; simpl iter_pos.
  - pose proof (shr_1_nonneg r Hr) as H1. pose proof (shr_1_digits r) as D1.
    destruct (IH _ H1) as [H2 D2]. destruct (IH _ H2) as [H3 D3].
    split; [exact H3 | lia].
  - destruct (IH _ Hr) as [H2 D2]. destruct (IH _ H2) as [H3 D3].
    split; [exact H3 | lia].
  - split; [apply shr_1_nonneg, Hr | rewrite shr_1_digits; lia].
Qed.

Lemma shr_m_of_loc (m : Z) (l : location) : shr_m (shr_record_of_loc m l) = m.
Proof. destruct l as [ | c]; [ | destruct c]; reflexivity. Qed.

Lemma fexp64 (x : Z) : fexp 53 1024 x = Z.max (x - 53) (-1074).
Proof. reflexivity. Qed.

(** Bringing a mantissa to its binary64 exponent. *)
Lemma shr_fexp_spec (m e : Z) (l : location) :
  0 <= m ->
  let r := shr_fexp 53 1024 m e l in
  0 <= shr_m (fst r) /\
  snd r = Z.max e (fexp 53 1024 (Zdigits2 m + e)) /\
  Zdigits2 (shr_m (fst r)) = Z.max 0 (Zdigits2 m - (snd r - e)).
Proof.
  intros Hm r. subst r. unfold shr_fexp, shr.
  pose proof (Zdigits2_nonneg m) as Hd.
  destruct (fexp 53 1024 (Zdigits2 m + e) - e) as [ | p | p] eqn:En; simpl fst; simpl snd.
  - rewrite shr_m_of_loc. lia.
  - destruct (iter_shr_1 p (shr_record_of_loc m l)) as [H1 D1].
    + rewrite shr_m_of_loc; exact Hm.
    + rewrite shr_m_of_loc in D1. lia.
  - rewrite shr_m_of_loc. lia.
Qed.

Lemma round_nearest_even_bounds (m : Z) (l : location) :
  m <= round_nearest_even m l <= m + 1.
Proof.
  destruct l as [ | c]; [ | destruct c]; simpl; try lia.
  destruct (Z.even m); lia.
Qed.

Lemma Zdigits2_mono (a b : Z) : 0 <= a <= b -> Zdigits2 a <= Zdigits2 b.
Proof.
  intros H. apply Zdigits2_le; try lia.
  - apply Zdigits2_nonneg.
  - pose proof (Zdigits2_gt b). lia.
Qed.

(** Rounding a value below [2 ^ B], with [B] in range, cannot overflow. *)
Lemma binary_round_aux_below (s : bool) (m e : Z) (l : location) (B : Z) :
  0 <= m -> Zdigits2 m + e <= B -> e <= B -> -1074 <= B <= 971 ->
  below (B + 1) (binary_round_aux 53 1024 s m e l).
Proof.
  intros Hm Hd He HB. unfold binary_round_aux.
  pose proof (shr_fexp_spec m e l Hm) as S1. cbv zeta in S1.
  destruct (shr_fexp 53 1024 m e l) as [r1 e1]. simpl fst in S1; simpl snd in S1.
  destruct S1 as (N1 & E1 & D1). rewrite fexp64 in E1.
  pose proof (round_nearest_even_bounds (shr_m r1) (loc_of_shr_record r1)) as R.
  set (m2 := round_nearest_even (shr_m r1) (loc_of_shr_record r1)) in *.
  assert (Hm2 : 0 <= m2) by lia.
  assert (D2 : Zdigits2 m2 <= Zdigits2 (shr_m r1) + 1).
  { etransitivity; [apply (Zdigits2_mono m2 (shr_m r1 + 1)); lia | ].
    apply Zdigits2_succ, N1. }
  pose proof (shr_fexp_spec m2 e1 loc_Exact Hm2) as S2. cbv zeta in S2.
  destruct (shr_fexp 53 1024 m2 e1 loc_Exact) as [r3 e3].
  simpl fst in S2; simpl snd in S2.
  destruct S2 as (N3 & E3 & D3). rewrite fexp64 in E3.
  pose proof (Zdigits2_nonneg m) as P0. pose proof (Zdigits2_nonneg m2) as P2.
  destruct (shr_m r3) as [ | p | p] eqn:Em3; [exact I | | lia].
  assert (Hle : e3 <= 971) by lia.
  change (1024 - 53) with 971.
  apply Z.leb_le in Hle. rewrite Hle. cbn [below].
  set (d3 := Zdigits2 (Z.pos p)) in *. clearbody d3. lia.
Qed.

(** The quotient of [a <= b] before rounding is at most one. *)
Lemma SFdiv_core_le_one (a b : positive) :
  (a <= b)%positive ->
  let r := SFdiv_core_binary 53 1024 (Z.pos a) 0 (Z.pos b) 0 in
  0 <= fst (fst r) /\ snd (fst r) <= 0 /\ Zdigits2 (fst (fst r)) + snd (fst r) <= 1.
Proof.
  intros Hab r. subst r. unfold SFdiv_core_binary. cbv zeta.
  set (e' := Z.min (fexp 53 1024 (Zdigits2 (Z.pos a) + 0 - (Zdigits2 (Z.pos b) + 0))) (0 - 0)).
  assert (He' : e' <= 0) by (subst e'; lia).
  set (m' := match 0 - 0 - e' with
             | 0 => Z.pos a
             | Z.pos _ => Z.shiftl (Z.pos a) (0 - 0 - e')
             | Z.neg _ => 0
             end).
  assert (Hm' : 0 <= m' <= Z.pos b * 2 ^ (- e')).
  { subst m'. destruct (0 - 0 - e') as [ | s | s] eqn:Es.
    - replace (- e') with 0 by lia. change (2 ^ 0) with 1. lia.
    - rewrite Z.shiftl_mul_pow2 by lia. replace (- e') with (Z.pos s) by lia.
      assert (0 < 2 ^ Z.pos s) by (apply Z.pow_pos_nonneg; lia). nia.
    - lia. }
  destruct (Z.div_eucl m' (Z.pos b)) as [q rem] eqn:Ed.
  assert (Hq : q = m' / Z.pos b) by (unfold Z.div; rewrite Ed; reflexivity).
  simpl fst; simpl snd.
  assert (Hq0 : 0 <= q) by (subst q; apply Z.div_pos; lia).
  assert (Hq1 : q <= 2 ^ (- e')).
  { subst q. apply Z.div_le_upper_bound; lia. }
  repeat split; try assumption.
  assert (Zdigits2 q <= - e' + 1); [ | lia].
  apply Zdigits2_le; try lia.
  rewrite Z.pow_add_r by lia. change (2 ^ 1) with 2.
  assert (0 < 2 ^ (- e')) by (apply Z.pow_pos_nonneg; lia). lia.
Qed.

Lemma int_true_divide_below (v t : Z) :
  0 <= v <= t -> 0 < t ->
  exists q, Py.int_true_divide v t = Ok q /\ below 2 q.
Proof.
  intros Hv Ht. unfold Py.int_true_divide.
  destruct (Z.eqb_spec t 0) as [E | _]; [lia | ].
  destruct v as [ | a | a]; [ | | lia].
  - eexists; split; [reflexivity | exact I].
  - destruct t as [ | b | b]; try lia.
    assert (Hb : below 2 (SFdiv Py.prec Py.emax
                            (S754_finite (Z.pos a <? 0) (Z.to_pos (Z.abs (Z.pos a))) 0)
                            (S754_finite (Z.pos b <? 0) (Z.to_pos (Z.abs (Z.pos b))) 0))).
    { change Py.prec with 53. change Py.emax with 1024.
      cbn [SFdiv Z.abs Z.to_pos].
      pose proof (SFdiv_core_le_one a b) as C. cbv zeta in C.
      destruct (SFdiv_core_binary 53 1024 (Z.pos a) 0 (Z.pos b) 0) as [[mz ez] lz].
      simpl fst in C; simpl snd in C.
      destruct C as (C0 & C1 & C2); [lia | ].
      apply (binary_round_aux_below _ mz ez lz 1); lia. }
    destruct (SFdiv _ _ _ _) as [sz | sz | | sz mz ez]; try contradiction;
      eexists; (split; [reflexivity | exact Hb]).
Qed.

Lemma float_of_int_100 :
  Py.float_of_int 100 = Ok (S754_finite false 7036874417766400 (-46)).
Proof. reflexivity. Qed.

Lemma float_mul_int_100_below (q : spec_float) :
  below 2 q -> exists p, Py.float_mul_int q 100 = Ok p /\ below 10 p.
Proof.
  intros Hq. unfold Py.float_mul_int. rewrite float_of_int_100. cbn [bind].
  eexists; split; [reflexivity | ].
  destruct q as [sq | sq | | sq mq eq]; try contradiction; [exact I | ].
  cbn [below] in Hq. change Py.prec with 53. change Py.emax with 1024.
  cbn [SFmul].
  pose proof (Zdigits2_mul (Z.pos mq) 7036874417766400) as Hmul.
  change (Zdigits2 7036874417766400) with 53 in Hmul.
  assert (H1 : 1 <= Zdigits2 (Z.pos mq)) by (cbn [Zdigits2]; lia).
  rewrite Pos2Z.inj_mul.
  apply (binary_round_aux_below _ _ _ _ 9); lia.
Qed.

Lemma round_below (B : Z) (p : spec_float) :
  below B p -> exists n, Py.round p = Ok n.
Proof.
  destruct p as [sp | sp | | sp mp ep]; intros H; try contradiction;
    eexists; reflexivity.
Qed.

End FloatFacts.

(** [verified_change] returns whenever the counts are consistent: no division
    by zero, no overflow. *)
Lemma verified_change_total (total_users verified_users : Z) :
  0 <= verified_users <= total_users ->
  exists n, verified_change total_users verified_users = Ok n.
Proof.
  intros H. unfold verified_change.
  destruct (Z.gtb_spec total_users 0) as [Hpos | Hzero].
  - destruct (FloatFacts.int_true_divide_below verified_users total_users H Hpos)
      as (q & Eq & Bq).
    destruct (FloatFacts.float_mul_int_100_below q Bq) as (p & Ep & Bp).
    destruct (FloatFacts.round_below 10 p Bp) as (n & En).
    exists n. rewrite Eq. cbn [bind]. rewrite Ep. cbn [bind]. exact En.
  - exists 0. reflexivity.
Qed.

(** ** Sanity checks of the arithmetic model *)

Example python_arithmetic :
  Py.round (S754_finite false 5 (-1)) = Ok 2 /\
  Py.round (S754_finite false 1 (-1)) = Ok 0 /\
  Py.round (S754_finite true 5 (-1)) = Ok (-2) /\
  Py.round (S754_finite false 3 (-1)) = Ok 2 /\
  percentage 7 10 = Ok 70 /\
  percentage 1 200 = Ok 0 /\
  percentage 1 3 = Ok 33 /\
  percentage 2 3 = Ok 67 /\
  Py.int_true_divide 7 10 = Ok (S754_finite false 6305039478318694 (-53)) /\
  Py.int_true_divide 0 (-5) = Ok (S754_zero true) /\
  Py.int_true_divide 1 0 = Raise ZeroDivisionError /\
  Py.int_true_divide (10 ^ 400) 1 = Raise OverflowError /\
  Py.int_true_divide 1 (10 ^ 400) = Ok (S754_zero false).
Proof. vm_compute. repeat split; reflexivity. Qed.

(** ** The dashboard's statistics *)

(** C2: for [total_users >= 0] and [0 <= verified_users <= total_users] the
    dashboard builder returns a document whose StatsGrid has exactly four
    items, whose "Unverified" item has the value
    [total_users - verified_users], and whose "Verified" item has as change
    [round(verified_users / total_users * 100)] when [total_users > 0] and
    [0] when [total_users = 0]. *)
Theorem C2_stats_grid_values (total_users verified_users : Z)
    (recent_users : list dict) :
  0 <= total_users ->
  0 <= verified_users <= total_users ->
  exists doc items change,
    get_dashboard_spec total_users verified_users recent_users = Ok doc /\
    at_path doc stats_items = Some (VList items) /\
    List.length items = 4%nat /\
    at_path doc (stat "Unverified" "value")
      = Some (VInt (total_users - verified_users)) /\
    at_path doc (stat "Verified" "change") = Some (VInt change) /\
    (0 < total_users -> percentage verified_users total_users = Ok change) /\
    (total_users = 0 -> change = 0).
Proof.
  intros Ht Hv.
  destruct (verified_change_total _ _ Hv) as [n En].
  unfold get_dashboard_spec. rewrite En. cbn [bind].
  eexists. eexists. exists n.
  split; [reflexivity | ].
  split; [reflexivity | ].
  split; [reflexivity | ].
  split; [reflexivity | ].
  split; [reflexivity | ].
  unfold verified_change in En. fold (percentage verified_users total_users) in En.
  split.
  - intros Hpos. apply Z.gtb_lt in Hpos. rewrite Hpos in En. exact En.
  - intros ->. cbn in En. congruence.
Qed.

(** Ten users of which seven are verified: three unverified, 70 percent. *)
Lemma C2_stats_grid_values_witness :
  exists doc items,
    get_dashboard_spec 10 7 [] = Ok doc /\
    at_path doc stats_items = Some (VList items) /\
    List.length items = 4%nat /\
    at_path doc (stat "Unverified" "value") = Some (VInt 3) /\
    at_path doc (stat "Verified" "change") = Some (VInt 70).
Proof.
  destruct (C2_stats_grid_values 10 7 []) as (doc & items & change & H);
    [lia | lia | ].
  destruct H as (Hdoc & Hitems & Hlen & Hunv & Hchg & Hpct & _).
  assert (Hc : change = 70).
  { assert (E : percentage 7 10 = Ok change) by (apply Hpct; lia).
    vm_compute in E. congruence. }
  subst change. exists doc, items. repeat split; assumption.
Defined.

(** C3: with no users at all the dashboard builder raises nothing, whatever
    the other arguments: the guard [total_users > 0] keeps the division, which
    would raise [ZeroDivisionError], from being evaluated, and the change of
    the "Verified" item is [0]. *)
Theorem C3_zero_users_no_division (verified_users : Z) (recent_users : list dict) :
  Py.int_true_divide verified_users 0 = Raise ZeroDivisionError /\
  verified_change 0 verified_users = Ok 0 /\
  exists doc,
    get_dashboard_spec 0 verified_users recent_users = Ok doc /\
    at_path doc (stat "Verified" "change") = Some (VInt 0).
Proof.
  split; [reflexivity | ]. split; [reflexivity | ].
  eexists. split; reflexivity.
Qed.

(** ** The users list *)

(** C4: the DataTable of the users list is paginated with page size 20 and
    searchable, and its row actions are exactly two buttons labelled "Edit"
    and "Delete", in that order. *)
Theorem C4_users_table :
  exists table actions,
    at_path get_users_list_spec users_table = Some table /\
    Py.item table "type" = Some (VStr "DataTable") /\
    Py.item table "pagination" = Some (VBool true) /\
    Py.item table "pageSize" = Some (VInt 20) /\
    Py.item table "searchable" = Some (VBool true) /\
    Py.item table "rowActions" = Some (VList actions) /\
    strings_of "type" actions = Some ["Button"; "Button"] /\
    strings_of "label" actions = Some ["Edit"; "Delete"].
Proof.
  eexists. eexists. repeat split; reflexivity.
Qed.

(** ** The user edit page *)

(** C5: for the record [{"email": "a@b.com"}] the Details form starts with
    both flags false, the Metadata card shows an em dash for both timestamps,
    and the endpoint and the confirmation prompt of the Danger Zone's delete
    action both contain the email. *)
Theorem C5_edit_spec_defaults (py_str : value -> string) :
  let doc := get_user_edit_spec py_str ["email" ~> "a@b.com"] in
  let form := in_card "User Details" "Form" in
  at_path doc (List.app form [Key "initialValues"; Key "email_verified"])
    = Some (VBool false) /\
  at_path doc (List.app form [Key "initialValues"; Key "two_factor_enabled"])
    = Some (VBool false) /\
  at_path doc (metadata_text 0 0) = Some (VStr "Created") /\
  at_path doc (metadata_text 0 1) = Some (VStr "—") /\
  at_path doc (metadata_text 1 0) = Some (VStr "Last Updated") /\
  at_path doc (metadata_text 1 1) = Some (VStr "—") /\
  exists action endpoint confirm,
    at_path doc danger_delete = Some action /\
    Py.item action "type" = Some (VStr "api") /\
    Py.item action "method" = Some (VStr "DELETE") /\
    Py.item action "endpoint" = Some (VStr endpoint) /\
    Py.contains "a@b.com" endpoint = true /\
    Py.item action "confirm" = Some (VStr confirm) /\
    Py.contains "a@b.com" confirm = true.
Proof.
  intros doc form. subst doc form.
  repeat (split; [reflexivity | ]).
  eexists. exists "/api/users/a@b.com", "Are you sure you want to delete a@b.com?".
  repeat split; reflexivity.
Qed.

(** ** The "Add User" action of the two pages *)

(** The claim as stated, C6: the first action of the users list is
    structurally equal to the first action of the dashboard.  It fails: the
    dashboard's email field has a placeholder that the list's has not. *)
Lemma C6_add_user_actions_differ :
  ~ (forall (total_users verified_users : Z) (recent_users : list dict) (doc : value),
       get_dashboard_spec total_users verified_users recent_users = Ok doc ->
       at_path get_users_list_spec first_action = at_path doc first_action).
Proof.
  intros H.
  pose proof (H 0 0 [] _ eq_refl) as E.
  apply (f_equal (fun o => match o with
                           | Some a => at_path a (List.app (add_user_field 0)
                                                           [Key "placeholder"])
                           | None => None
                           end)) in E.
  vm_compute in E. discriminate E.
Qed.

(** C6, amended: both pages have an "Add User" button as their single action,
    and the two buttons are structurally equal once the placeholder of the
    dashboard's email field and the label of its email_verified checkbox,
    which the users list does not have, are deleted. *)
Theorem C6_add_user_actions_agree_up_to_hints (total_users verified_users : Z)
    (recent_users : list dict) (doc : value) :
  get_dashboard_spec total_users verified_users recent_users = Ok doc ->
  exists dash_action list_action,
    Py.item doc "actions" = Some (VList [dash_action]) /\
    Py.item get_users_list_spec "actions" = Some (VList [list_action]) /\
    has_entry "label" "Add User" dash_action = true /\
    has_entry "label" "Add User" list_action = true /\
    at_path dash_action (List.app (add_user_field 0) [Key "placeholder"])
      = Some (VStr "user@example.com") /\
    at_path list_action (List.app (add_user_field 0) [Key "placeholder"]) = None /\
    at_path dash_action (List.app (add_user_field 2) [Key "label"])
      = Some (VStr "Email Verified") /\
    at_path list_action (List.app (add_user_field 2) [Key "label"]) = None /\
    delete_at (add_user_field 2) "label"
      (delete_at (add_user_field 0) "placeholder" dash_action) = list_action.
Proof.
  intros H. unfold get_dashboard_spec in H.
  destruct (verified_change total_users verified_users) as [change | e];
    cbn [bind] in H; [ | discriminate H].
  injection H as <-.
  eexists. eexists. repeat split; reflexivity.
Qed.

Lemma C6_add_user_actions_agree_up_to_hints_witness :
  exists doc dash_action list_action,
    get_dashboard_spec 10 7 [] = Ok doc /\
    Py.item doc "actions" = Some (VList [dash_action]) /\
    Py.item get_users_list_spec "actions" = Some (VList [list_action]) /\
    delete_at (add_user_field 2) "label"
      (delete_at (add_user_field 0) "placeholder" dash_action) = list_action.
Proof.
  assert (E : verified_change 10 7 = Ok 70) by (vm_compute; reflexivity).
  assert (D : exists doc, get_dashboard_spec 10 7 [] = Ok doc).
  { unfold get_dashboard_spec. rewrite E. cbn [bind]. eexists. reflexivity. }
  destruct D as [doc D].
  destruct (C6_add_user_actions_agree_up_to_hints 10 7 [] doc D)
    as (dash_action & list_action & Hd & Hl & _ & _ & _ & _ & _ & _ & Heq).
  exists doc, dash_action, list_action. repeat split; assumption.
Defined.

(** ** Well-formedness under the Node Schema *)

(** The checker does reject what the schema forbids, at any depth. *)
Example well_formed_rejects :
  well_formed Node (VDict ["type" ~> "Page";
                           "children" ~> VList [VDict ["type" ~> "Carousel"]]]) = false /\
  well_formed Node (VDict ["type" ~> "Page";
                           "children" ~> VList [VDict ["title" ~> "no type"]]]) = false /\
  well_formed Node (VDict ["type" ~> "Button";
                           "onClick" ~> VDict ["type" ~> "submit"]]) = false /\
  well_formed Node (VDict ["type" ~> "Button";
                           "onClick" ~> VDict [
                             "type" ~> "openModal";
                             "modal" ~> VDict ["type" ~> "Popup"]]]) = false /\
  well_formed Node (VDict ["type" ~> "DataTable";
                           "rowActions" ~> VList [
                             VDict ["type" ~> "Button";
                                    "onClick" ~> VDict [
                                      "type" ~> "api";
                                      "onSuccess" ~> VDict ["type" ~> "reload"]]]]]) = false /\
  well_formed Node (VDict ["type" ~> "Form";
                           "fields" ~> VList [
                             VDict ["type" ~> "TextField"; "name" ~> ""]]]) = false /\
  well_formed Node (VDict ["type" ~> "Form";
                           "fields" ~> VList [VDict ["type" ~> "TextField"]]]) = false /\
  well_formed Node (VDict ["type" ~> "StatsGrid";
                           "items" ~> VList [
                             VDict ["label" ~> "x";
                                    "onClick" ~> VDict ["type" ~> "goto"]]]]) = false /\
  well_formed Node (VDict ["type" ~> "Form";
                           "fields" ~> VList [
                             VDict ["type" ~> "TextField"; "name" ~> "email"]];
                           "onSuccess" ~> VDict ["type" ~> "refresh"]]) = true.
Proof. repeat split; reflexivity. Qed.

Ltac find_entry := cbn [In]; repeat first [left; reflexivity | right].

(** Occurrence reaches the nested places: the success handler of the Delete
    row action of the users table is an action of the users list page. *)
Example part_reaches_row_action_handler :
  part Node get_users_list_spec Action (VDict ["type" ~> "refresh"]).
Proof.
  unfold get_users_list_spec.
  eapply (part_element _ _ "children"); [find_entry | reflexivity | left; reflexivity | ].
  eapply (part_element _ _ "children"); [find_entry | reflexivity | left; reflexivity | ].
  eapply (part_element _ _ "rowActions");
    [find_entry | reflexivity | right; left; reflexivity | ].
  eapply (part_entry _ _ "onClick"); [find_entry | reflexivity | ].
  eapply (part_entry _ _ "onSuccess"); [find_entry | reflexivity | ].
  apply part_here.
Qed.

(** What the checker accepts, entry by entry. *)
Lemma well_formed_dict (r : role) (d : dict) :
  well_formed r (VDict d) = true ->
  own_ok r d = true /\
  forall k x, In (k, x) d ->
    match child_role r k with
    | None => True
    | Some (r1, false) => well_formed r1 x = true
    | Some (r1, true) =>
        exists l, x = VList l /\ forall y, In y l -> well_formed r1 y = true
    end.
Proof.
  cbn [well_formed]. intros H. apply andb_true_iff in H. destruct H as [Hown Hd].
  split; [exact Hown | ]. clear Hown.
  induction d as [ | [k0 x0] rest IH]; intros k x Hin; [destruct Hin | ].
  apply andb_true_iff in Hd. destruct Hd as [Hhead Hrest].
  destruct Hin as [Heq | Hin]; [ | exact (IH Hrest k x Hin)].
  injection Heq as <- <-. clear IH Hrest.
  destruct (child_role r k0) as [[r1 [ | ]] | ]; [ | exact Hhead | exact I].
  destruct x0 as [ | b | n | f | s | l | d0]; try discriminate Hhead.
  exists l. split; [reflexivity | ].
  induction l as [ | y0 l IHl]; intros y Hy; [destruct Hy | ].
  apply andb_true_iff in Hhead. destruct Hhead as [Hy0 Hl].
  destruct Hy as [<- | Hy]; [exact Hy0 | exact (IHl Hl y Hy)].
Qed.

(** The checker is sound for the occurrence reading of the schema. *)
Lemma well_formed_sound (r : role) (v : value) (r' : role) (v' : value) :
  part r v r' v' -> well_formed r v = true ->
  exists d', v' = VDict d' /\ own_ok r' d' = true.
Proof.
  intros Hpart. induction Hpart as
    [r v | r d k x r1 r' v' Hin Hrole Hpart IH
     | r d k l y r1 r' v' Hin Hrole Hy Hpart IH]; intros Hwf.
  - destruct v as [ | b | n | f | s | l | d]; try discriminate Hwf.
    exists d. split; [reflexivity | apply (well_formed_dict r d Hwf)].
  - apply well_formed_dict in Hwf. destruct Hwf as [_ Hd].
    specialize (Hd k x Hin). rewrite Hrole in Hd. exact (IH Hd).
  - apply well_formed_dict in Hwf. destruct Hwf as [_ Hd].
    specialize (Hd k (VList l) Hin). rewrite Hrole in Hd.
    destruct Hd as (l0 & El & Hall). injection El as <-.
    exact (IH (Hall y Hy)).
Qed.

Lemma well_formed_every_part_ok (doc : value) :
  well_formed Node doc = true ->
  well_formed Node doc = true /\ every_part_ok doc.
Proof.
  intros Hwf. split; [exact Hwf | ].
  intros r v Hpart. exact (well_formed_sound Node doc r v Hpart Hwf).
Qed.

(** C1: each of the three builders returns a document that is recursively
    well-formed: every node has a registered type, every action (those of
    modals, row actions and success handlers included) a registered action
    type, and every entry of a form's fields a non-empty name.  For the
    dashboard this is for consistent counts and any list of recent users, for
    the edit page for any user record. *)
Theorem C1_documents_well_formed (py_str : value -> string)
    (total_users verified_users : Z) (recent_users : list dict) (user : dict) :
  0 <= total_users ->
  0 <= verified_users <= total_users ->
  (exists doc,
     get_dashboard_spec total_users verified_users recent_users = Ok doc /\
     well_formed Node doc = true /\ every_part_ok doc) /\
  (well_formed Node get_users_list_spec = true /\
   every_part_ok get_users_list_spec) /\
  (well_formed Node (get_user_edit_spec py_str user) = true /\
   every_part_ok (get_user_edit_spec py_str user)).
Proof.
  intros Ht Hv.
  destruct (verified_change_total _ _ Hv) as [n En].
  unfold get_dashboard_spec. rewrite En. cbn [bind].
  split; [eexists; split; [reflexivity | ] | split];
    apply well_formed_every_part_ok; reflexivity.
Qed.

Lemma C1_documents_well_formed_witness :
  (exists doc,
     get_dashboard_spec 10 7 [sample_user] = Ok doc /\
     well_formed Node doc = true /\ every_part_ok doc) /\
  (well_formed Node get_users_list_spec = true /\
   every_part_ok get_users_list_spec) /\
  (well_formed Node (get_user_edit_spec sample_str sample_user) = true /\
   every_part_ok (get_user_edit_spec sample_str sample_user)).
Proof.
  apply (C1_documents_well_formed sample_str 10 7 [sample_user] sample_user); lia.
Defined.

(** ** The dashboard ignores the records it is given *)

(** C10: the dashboard builder's outcome is the same for any two lists of
    recent users; with consistent counts it is a document, and the Recent
    Users table of that document is bound to the endpoint ["/api/users"]
    and holds no rows of its own. *)
Theorem C10_recent_users_unused (total_users verified_users : Z)
    (r1 r2 : list dict) :
  get_dashboard_spec total_users verified_users r1
    = get_dashboard_spec total_users verified_users r2 /\
  (0 <= verified_users <= total_users ->
   exists doc table,
     get_dashboard_spec total_users verified_users r1 = Ok doc /\
     get_dashboard_spec total_users verified_users r2 = Ok doc /\
     at_path doc (in_card "Recent Users" "DataTable") = Some (VDict table) /\
     Py.lookup "endpoint" table = Some (VStr "/api/users") /\
     map fst table = ["type"; "endpoint"; "pagination"; "searchable";
                      "columns"; "rowActions"; "emptyMessage"]).
Proof.
  split; [reflexivity | ].
  intros Hv. destruct (verified_change_total _ _ Hv) as [n En].
  unfold get_dashboard_spec. rewrite En. cbn [bind].
  eexists. eexists. repeat split; reflexivity.
Qed.

Lemma C10_recent_users_unused_witness :
  get_dashboard_spec 10 7 [] = get_dashboard_spec 10 7 [sample_user] /\
  exists doc table,
    get_dashboard_spec 10 7 [] = Ok doc /\
    get_dashboard_spec 10 7 [sample_user] = Ok doc /\
    at_path doc (in_card "Recent Users" "DataTable") = Some (VDict table) /\
    Py.lookup "endpoint" table = Some (VStr "/api/users").
Proof.
  destruct (C10_recent_users_unused 10 7 [] [sample_user]) as [Heq Hdoc].
  split; [exact Heq | ].
  destruct Hdoc as (doc & table & H1 & H2 & H3 & H4 & _); [lia | ].
  exists doc, table. repeat split; assumption.
Defined.

(** ** The request handlers *)

Ltac run_handler :=
  unfold json;
  cbn [await bind try_except body status_code is_httpx_HTTPError
       is_Exception as_dict http_status str_exn negb
       validated dict_any dict_str list_of forallb snd andb].

(** The claim as stated, C7: on every upstream 200 the handler returns the
    edit page.  It fails for an upstream 200 whose body is an empty JSON list:
    a list is no record, [user.get] raises and the answer is a 500. *)
Lemma C7_page_needs_a_record :
  ~ (forall (py_str : value -> string) (client : AsyncClient) (user_id : string)
            (response : Response),
       client_get client (String.append "/users/" user_id) = inr response ->
       status_code response = 200 ->
       exists doc, ui_user_edit py_str client user_id = Ok doc).
Proof.
  intros H.
  destruct (H sample_str (mock_client (answers 200 (Some (VList [])))) "a@b.com"
              {| status_code := 200; body := Some (VList []) |} eq_refl eq_refl)
    as [doc Hdoc].
  discriminate Hdoc.
Qed.

(** C7, amended: [GET /ui/users/{id}] answers 404 whenever the upstream
    answers with a status other than 200, answers 502 exactly when the
    upstream call raises an [httpx.HTTPError] (a timeout, a connection error
    or another transport failure), and on an upstream 200 whose body is a JSON
    object returns the edit page built from that object. *)
Theorem C7_ui_user_edit_statuses (py_str : value -> string)
    (client : AsyncClient) (user_id : string) :
  let upstream := client_get client (String.append "/users/" user_id) in
  let answer := ui_user_edit py_str client user_id in
  (forall response,
     upstream = inr response -> status_code response <> 200 ->
     answer = Raise (HTTPException 404 (VStr "User not found")) /\
     http_status answer = 404) /\
  (http_status answer = 502 <-> exists msg, upstream = inl (ClientHTTPError msg)) /\
  (forall msg,
     upstream = inl (ClientHTTPError msg) ->
     answer = Raise (HTTPException 502
                       (VStr (String.append "Auth service error: " msg)))) /\
  (forall response user,
     upstream = inr response -> status_code response = 200 ->
     body response = Some (VDict user) ->
     answer = Ok (get_user_edit_spec py_str user) /\
     http_status answer = 200).
Proof.
  intros upstream answer. subst answer. unfold ui_user_edit. fold upstream.
  split; [ | split; [ | split]].
  - intros response E N. rewrite E. run_handler.
    destruct (Z.eqb_spec (status_code response) 200); [contradiction | ].
    split; reflexivity.
  - split.
    + intros H. destruct upstream as [[msg | msg] | response].
      * exists msg; reflexivity.
      * cbn in H. discriminate H.
      * revert H. run_handler.
        destruct (Z.eqb_spec (status_code response) 200) as [E | N]; run_handler.
        -- destruct (body response) as [[ | b | n | x | s | l | d] | ];
             cbn; intros H; discriminate H.
        -- cbn. intros H; discriminate H.
    + intros [msg E]. rewrite E. reflexivity.
  - intros msg E. rewrite E. reflexivity.
  - intros response user E S B. rewrite E. run_handler. rewrite S, B.
    split; reflexivity.
Qed.

Lemma C7_ui_user_edit_statuses_witness :
  http_status (ui_user_edit sample_str (mock_client (answers 500 None)) "a@b.com") = 404 /\
  http_status (ui_user_edit sample_str (mock_client (fails "timed out")) "a@b.com") = 502 /\
  ui_user_edit sample_str (mock_client (answers 200 (Some (VDict sample_user)))) "a@b.com"
    = Ok (get_user_edit_spec sample_str sample_user).
Proof.
  split; [ | split].
  - pose proof (C7_ui_user_edit_statuses sample_str
                  (mock_client (answers 500 None)) "a@b.com") as (H & _).
    apply (H {| status_code := 500; body := None |}); [reflexivity | discriminate].
  - pose proof (C7_ui_user_edit_statuses sample_str
                  (mock_client (fails "timed out")) "a@b.com") as (_ & H & _).
    apply H. exists "timed out". reflexivity.
  - pose proof (C7_ui_user_edit_statuses sample_str
                  (mock_client (answers 200 (Some (VDict sample_user)))) "a@b.com")
      as (_ & _ & _ & H).
    apply (H {| status_code := 200; body := Some (VDict sample_user) |} sample_user);
      reflexivity.
Defined.

(** The claim as stated, C8: on an upstream 200 the handler forwards the
    upstream's body as it is.  It fails for an upstream 200 whose body is a
    JSON object: the route is declared to return a list of objects, the body
    does not pass the validation and the answer is a 500. *)
Lemma C8_body_not_always_forwarded :
  ~ (forall (client : AsyncClient) (response : Response) (users : value),
       client_get client "/users" = inr response ->
       status_code response = 200 ->
       body response = Some users ->
       api_users client = Ok users).
Proof.
  intros H.
  specialize (H (mock_client (answers 200 (Some (VDict ["detail" ~> "x"]))))
                {| status_code := 200; body := Some (VDict ["detail" ~> "x"]) |}
                (VDict ["detail" ~> "x"]) eq_refl eq_refl eq_refl).
  discriminate H.
Qed.

(** C8, amended: [GET /api/users] answers 200 with the empty array whenever
    the upstream answers with a status other than 200, raises anything, or
    sends a 200 whose body is not JSON, and so never passes an upstream
    failure status on; on an upstream 200 whose body is a JSON list of objects
    it forwards that list as it is.  A JSON body of an upstream 200 that is
    not a list of objects does not fit the declared return type and is
    answered with 500. *)
Theorem C8_api_users_answers (client : AsyncClient) :
  let upstream := client_get client "/users" in
  let answer := api_users client in
  (forall e,
     upstream = inl e ->
     answer = Ok (VList []) /\ http_status answer = 200) /\
  (forall response,
     upstream = inr response -> status_code response <> 200 ->
     answer = Ok (VList []) /\ http_status answer = 200) /\
  (forall response,
     upstream = inr response -> status_code response = 200 ->
     body response = None ->
     answer = Ok (VList []) /\ http_status answer = 200) /\
  (forall response users,
     upstream = inr response -> status_code response = 200 ->
     body response = Some users -> list_of dict_any users = true ->
     answer = Ok users /\ http_status answer = 200) /\
  (forall response users,
     upstream = inr response -> status_code response = 200 ->
     body response = Some users -> list_of dict_any users = false ->
     answer = Raise ResponseValidationError /\ http_status answer = 500).
Proof.
  intros upstream answer. subst answer. unfold api_users. fold upstream.
  split; [ | split; [ | split; [ | split]]].
  - intros e E. rewrite E. destruct e; split; reflexivity.
  - intros response E N. rewrite E. run_handler.
    destruct (Z.eqb_spec (status_code response) 200); [contradiction | ].
    split; reflexivity.
  - intros response E S B. rewrite E. run_handler. rewrite S, B. split; reflexivity.
  - intros response users E S B F. rewrite E. run_handler. rewrite S, B.
    cbn [Z.eqb Pos.eqb negb try_except validated]. rewrite F. split; reflexivity.
  - intros response users E S B F. rewrite E. run_handler. rewrite S, B.
    cbn [Z.eqb Pos.eqb negb try_except validated]. rewrite F. split; reflexivity.
Qed.

Lemma C8_api_users_answers_witness :
  api_users (mock_client (answers 200 (Some (VList [VDict sample_user]))))
    = Ok (VList [VDict sample_user]) /\
  api_users (mock_client (answers 500 (Some (VList [])))) = Ok (VList []) /\
  api_users (mock_client (answers 200 None)) = Ok (VList []) /\
  api_users (mock_client (fails "connection refused")) = Ok (VList []) /\
  http_status (api_users (mock_client (answers 200 (Some (VDict ["detail" ~> "x"]))))) = 500.
Proof.
  split; [ | split; [ | split; [ | split]]].
  - pose proof (C8_api_users_answers
                  (mock_client (answers 200 (Some (VList [VDict sample_user])))))
      as (_ & _ & _ & H & _).
    apply (H {| status_code := 200; body := Some (VList [VDict sample_user]) |});
      reflexivity.
  - pose proof (C8_api_users_answers
                  (mock_client (answers 500 (Some (VList []))))) as (_ & H & _).
    apply (H {| status_code := 500; body := Some (VList []) |});
      [reflexivity | discriminate].
  - pose proof (C8_api_users_answers (mock_client (answers 200 None)))
      as (_ & _ & H & _).
    apply (H {| status_code := 200; body := None |}); reflexivity.
  - pose proof (C8_api_users_answers (mock_client (fails "connection refused")))
      as (H & _).
    apply (H (ClientHTTPError "connection refused")). reflexivity.
  - pose proof (C8_api_users_answers
                  (mock_client (answers 200 (Some (VDict ["detail" ~> "x"])))))
      as (_ & _ & _ & _ & H).
    apply (H {| status_code := 200; body := Some (VDict ["detail" ~> "x"]) |}
             (VDict ["detail" ~> "x"])); reflexivity.
Defined.




(** * Further properties *)

(** ** The percentage lies between 0 and 100 *)

Module FloatBounds.

Import FloatFacts.

Lemma shr_1_under (U : Z) (r : shr_record) :
  under (2 * U) r -> under U (shr_1 r).
Proof.
  unfold under, inexact. destruct r as [m b c]. cbn [shr_m shr_r shr_s].
  intros [Hm Hin].
  destruct m as [ | p | p]; [ | destruct p as [p | p | ] | lia];
    cbn [shr_1 shr_m shr_r shr_s].
  - split; [lia | ]. intros H. rewrite orb_false_l in H. specialize (Hin H). lia.
  - split; [lia | ]. intros _. lia.
  - split; [lia | ].
    intros H. rewrite orb_false_l in H. specialize (Hin H). lia.
  - split; [lia | ]. intros _. lia.
Qed.

Lemma pow2_xO (p : positive) : 2 ^ Z.pos p~0 = 2 ^ Z.pos p * 2 ^ Z.pos p.
Proof.
  replace (Z.pos p~0) with (Z.pos p + Z.pos p) by lia.
  apply Z.pow_add_r; lia.
Qed.

Lemma pow2_xI (p : positive) : 2 ^ Z.pos p~1 = 2 * (2 ^ Z.pos p * 2 ^ Z.pos p).
Proof.
  replace (Z.pos p~1) with (1 + (Z.pos p + Z.pos p)) by lia.
  rewrite Z.pow_add_r by lia. rewrite (Z.pow_add_r 2 (Z.pos p)) by lia.
  reflexivity.
Qed.

Lemma iter_shr_1_under (p : positive) : forall (U : Z) (r : shr_record),
  under (2 ^ Z.pos p * U) r -> under U (iter_pos shr_1 p r).
Proof.
  induction p as [p IH | p IH | ]; intros U r H; cbn [iter_pos].
  - apply IH, IH, shr_1_under.
    replace (2 * (2 ^ Z.pos p * (2 ^ Z.pos p * U))) with (2 ^ Z.pos p~1 * U); [exact H | ].
    rewrite pow2_xI. ring.
  - apply IH, IH.
    replace (2 ^ Z.pos p * (2 ^ Z.pos p * U)) with (2 ^ Z.pos p~0 * U); [exact H | ].
    rewrite pow2_xO. ring.
  - apply shr_1_under. exact H.
Qed.

Lemma under_of_loc (U m : Z) (l : location) :
  0 <= m <= U -> (l <> loc_Exact -> m < U) -> under U (shr_record_of_loc m l).
Proof.
  intros Hm Hl. unfold under. rewrite shr_m_of_loc. split; [exact Hm | ].
  intros H. apply Hl. intros ->. discriminate H.
Qed.

Lemma shr_fexp_under (m e : Z) (l : location) (U : Z) :
  under (2 ^ (snd (shr_fexp 53 1024 m e l) - e) * U) (shr_record_of_loc m l) ->
  under U (fst (shr_fexp 53 1024 m e l)).
Proof.
  unfold shr_fexp, shr.
  destruct (fexp 53 1024 (Zdigits2 m + e) - e) as [ | p | p];
    cbn [fst snd]; intros H.
  - replace (e - e) with 0 in H by lia. change (2 ^ 0) with 1 in H.
    rewrite Z.mul_1_l in H. exact H.
  - apply iter_shr_1_under. replace (e + Z.pos p - e) with (Z.pos p) in H by lia.
    exact H.
  - replace (e - e) with 0 in H by lia. change (2 ^ 0) with 1 in H.
    rewrite Z.mul_1_l in H. exact H.
Qed.

Lemma round_nearest_even_under (U : Z) (r : shr_record) :
  under U r -> round_nearest_even (shr_m r) (loc_of_shr_record r) <= U.
Proof.
  unfold under, inexact. destruct r as [m [ | ] [ | ]];
    cbn [shr_m shr_r shr_s loc_of_shr_record round_nearest_even];
    intros [Hm Hin]; try (specialize (Hin eq_refl)); try lia.
  destruct (Z.even m); lia.
Qed.

(** [binary_round_aux], told by the mantissa and the exponent it ends with:
    the exponent does not go down and stays within reach of the input's, the
    result is not a NaN, and rounding never crosses a bound that the final
    exponent can express. *)
Lemma binary_round_aux_spec (s : bool) (m e : Z) (l : location) :
  0 <= m ->
  exists m3 e3,
    binary_round_aux 53 1024 s m e l = rounded s m3 e3 /\
    0 <= m3 /\
    e <= e3 <= Z.max e (Z.max (Zdigits2 m + e + 1 - 53) (-1074)) /\
    forall U, m <= 2 ^ (e3 - e) * U -> (l <> loc_Exact -> m < 2 ^ (e3 - e) * U) ->
              m3 <= U.
Proof.
  intros Hm. unfold binary_round_aux.
  pose proof (shr_fexp_spec m e l Hm) as S1. cbv zeta in S1.
  pose proof (shr_fexp_under m e l) as V1.
  destruct (shr_fexp 53 1024 m e l) as [r1 e1]. cbn [fst snd] in S1, V1.
  destruct S1 as (N1 & E1 & D1). rewrite fexp64 in E1.
  pose proof (round_nearest_even_bounds (shr_m r1) (loc_of_shr_record r1)) as R.
  pose proof (round_nearest_even_under) as RU. specialize (fun U => RU U r1).
  set (m2 := round_nearest_even (shr_m r1) (loc_of_shr_record r1)) in *.
  assert (Hm2 : 0 <= m2) by lia.
  assert (D2 : Zdigits2 m2 <= Zdigits2 (shr_m r1) + 1).
  { etransitivity; [apply (Zdigits2_mono m2 (shr_m r1 + 1)); lia | ].
    apply Zdigits2_succ, N1. }
  pose proof (shr_fexp_spec m2 e1 loc_Exact Hm2) as S2. cbv zeta in S2.
  pose proof (shr_fexp_under m2 e1 loc_Exact) as V2.
  destruct (shr_fexp 53 1024 m2 e1 loc_Exact) as [r3 e3]. cbn [fst snd] in S2, V2.
  destruct S2 as (N3 & E3 & D3). rewrite fexp64 in E3.
  pose proof (Zdigits2_nonneg m) as P0. pose proof (Zdigits2_nonneg m2) as P2.
  exists (shr_m r3), e3.
  assert (He13 : e <= e1 <= e3) by lia.
  split; [ | split; [exact N3 | split]].
  - unfold rounded. change (1024 - 53) with 971. reflexivity.
  - set (d := Zdigits2 m) in *. set (d1 := Zdigits2 (shr_m r1)) in *.
    set (d2 := Zdigits2 m2) in *. clearbody d d1 d2. lia.
  - intros U HU HlU.
    assert (Hsplit : 2 ^ (e3 - e) * U = 2 ^ (e1 - e) * (2 ^ (e3 - e1) * U)).
    { replace (e3 - e) with ((e1 - e) + (e3 - e1)) by lia.
      rewrite Z.pow_add_r by lia. ring. }
    rewrite Hsplit in HU, HlU.
    assert (U1 : under (2 ^ (e3 - e1) * U) r1).
    { apply V1. apply under_of_loc; [lia | exact HlU]. }
    apply RU in U1.
    assert (U3 : under U r3).
    { apply V2. apply under_of_loc; [lia | ]. intros H; contradiction H; reflexivity. }
    apply U3.
Qed.

Lemma new_location_zero (b : Z) : new_location b 0 = loc_Exact.
Proof.
  unfold new_location, new_location_even, new_location_odd.
  destruct (Z.even b); reflexivity.
Qed.

(** The quotient of [a <= b] before rounding: at most one, and below one when
    the division leaves a remainder. *)
Lemma SFdiv_core_spec (a b : positive) :
  (a <= b)%positive ->
  exists q e' l,
    SFdiv_core_binary 53 1024 (Z.pos a) 0 (Z.pos b) 0 = (q, e', l) /\
    0 <= q <= 2 ^ (- e') /\ e' <= 0 /\
    (l <> loc_Exact -> q < 2 ^ (- e')) /\
    Zdigits2 q + e' <= 1.
Proof.
  intros Hab. unfold SFdiv_core_binary. cbv zeta.
  set (e' := Z.min (fexp 53 1024 (Zdigits2 (Z.pos a) + 0 - (Zdigits2 (Z.pos b) + 0))) (0 - 0)).
  assert (He' : e' <= 0) by (subst e'; lia).
  set (m' := match 0 - 0 - e' with
             | 0 => Z.pos a
             | Z.pos _ => Z.shiftl (Z.pos a) (0 - 0 - e')
             | Z.neg _ => 0
             end).
  assert (Hpow : 0 < 2 ^ (- e')) by (apply Z.pow_pos_nonneg; lia).
  assert (Hm' : 0 <= m' <= Z.pos b * 2 ^ (- e')).
  { subst m'. destruct (0 - 0 - e') as [ | s | s] eqn:Es.
    - replace (- e') with 0 by lia. change (2 ^ 0) with 1. lia.
    - rewrite Z.shiftl_mul_pow2 by lia. replace (- e') with (Z.pos s) in * by lia. nia.
    - lia. }
  pose proof (Z.div_mod m' (Z.pos b)) as Hdm.
  pose proof (Z.mod_pos_bound m' (Z.pos b)) as Hmod.
  unfold Z.div, Z.modulo in Hdm, Hmod.
  destruct (Z.div_eucl m' (Z.pos b)) as [q rem].
  specialize (Hdm ltac:(lia)). specialize (Hmod ltac:(lia)).
  exists q, e', (new_location (Z.pos b) rem).
  split; [reflexivity | ].
  assert (Hq0 : 0 <= q) by nia.
  assert (Hq1 : q <= 2 ^ (- e')) by nia.
  split; [lia | ]. split; [exact He' | ]. split.
  - intros Hl. assert (Hrem : rem <> 0).
    { intros ->. apply Hl. apply new_location_zero. }
    nia.
  - assert (Zdigits2 q <= - e' + 1); [ | lia].
    apply Zdigits2_le; try lia.
    rewrite Z.pow_add_r by lia. change (2 ^ 1) with 2. lia.
Qed.

Lemma at_most_rounded (c k m3 e3 : Z) :
  0 <= m3 -> e3 <= k -> k <= 971 -> m3 <= c * 2 ^ (k - e3) ->
  at_most c k (rounded false m3 e3).
Proof.
  intros Hm He Hk HU. unfold rounded.
  destruct m3 as [ | p | p]; [exact I | | lia].
  assert (Hle : (e3 <=? 971) = true) by (apply Z.leb_le; lia).
  rewrite Hle. cbn [at_most]. split; assumption.
Qed.

(** [v / t] for [0 < v <= t] is a float that is at most one. *)
Lemma int_true_divide_at_most_one (v t : Z) :
  0 <= v <= t -> 0 < t ->
  exists q, Py.int_true_divide v t = Ok q /\ at_most 1 0 q.
Proof.
  intros Hv Ht. unfold Py.int_true_divide.
  destruct (Z.eqb_spec t 0) as [E | _]; [lia | ].
  destruct v as [ | a | a]; [ | | lia].
  - eexists; split; [reflexivity | exact I].
  - destruct t as [ | b | b]; try lia.
    change Py.prec with 53. change Py.emax with 1024.
    cbn [SFdiv Z.abs Z.to_pos Z.ltb Z.compare xorb].
    destruct (SFdiv_core_spec a b) as (q & e' & l & Ecore & Hq & He' & Hl & Hd); [lia | ].
    rewrite Ecore.
    destruct (binary_round_aux_spec false q e' l) as (m3 & e3 & Er & Hm3 & He3 & Hbound);
      [lia | ].
    rewrite Er.
    assert (He30 : e3 <= 0).
    { pose proof (Zdigits2_nonneg q). lia. }
    assert (Hpow : 2 ^ (e3 - e') * (1 * 2 ^ (0 - e3)) = 2 ^ (- e')).
    { rewrite Z.mul_1_l, <- Z.pow_add_r by lia. f_equal. lia. }
    assert (HU : m3 <= 1 * 2 ^ (0 - e3)).
    { apply Hbound; rewrite Hpow; [lia | exact Hl]. }
    pose proof (at_most_rounded 1 0 m3 e3 Hm3 He30 ltac:(lia) HU) as Hat.
    destruct (rounded false m3 e3) as [sz | sz | | sz mz ez]; try contradiction;
      eexists; (split; [reflexivity | exact Hat]).
Qed.

(** Times 100, a float at most one is a float at most 100. *)
Lemma float_mul_int_100_at_most (q : spec_float) :
  at_most 1 0 q -> exists p, Py.float_mul_int q 100 = Ok p /\ at_most 25 2 p.
Proof.
  intros Hq. unfold Py.float_mul_int. rewrite float_of_int_100. cbn [bind].
  eexists; split; [reflexivity | ].
  destruct q as [sq | sq | | [ | ] mq ex]; try contradiction; [exact I | ].
  cbn [at_most] in Hq. destruct Hq as [He Hm]. rewrite Z.mul_1_l in Hm.
  change Py.prec with 53. change Py.emax with 1024. cbn [SFmul xorb].
  rewrite Pos2Z.inj_mul.
  set (M := Z.pos mq) in *.
  assert (HM : 0 < M) by (subst M; lia). clearbody M.
  destruct (binary_round_aux_spec false (M * 7036874417766400) (ex + -46) loc_Exact)
    as (m3 & e3 & Er & Hm3 & He3 & Hbound); [lia | ].
  rewrite Er.
  assert (Hpow0 : 0 < 2 ^ (0 - ex)) by (apply Z.pow_pos_nonneg; lia).
  assert (Hd : Zdigits2 (M * 7036874417766400) <= (0 - ex) + 1 + 53).
  { etransitivity; [apply Zdigits2_mul; lia | ].
    change (Zdigits2 7036874417766400) with 53.
    assert (Zdigits2 M <= (0 - ex) + 1); [ | lia].
    apply Zdigits2_le; try lia.
    rewrite Z.pow_add_r by lia. change (2 ^ 1) with 2. lia. }
  set (d := Zdigits2 (M * 7036874417766400)) in *. clearbody d.
  assert (He32 : e3 <= 2) by lia.
  assert (Hpow : 2 ^ (e3 - (ex + -46)) * (25 * 2 ^ (2 - e3))
                 = 7036874417766400 * 2 ^ (0 - ex)).
  { replace (e3 - (ex + -46)) with ((e3 - ex + 46)) by lia.
    transitivity (25 * 2 ^ ((e3 - ex + 46) + (2 - e3))).
    - rewrite (Z.pow_add_r 2 (e3 - ex + 46) (2 - e3)) by lia. ring.
    - replace (e3 - ex + 46 + (2 - e3)) with (48 + (0 - ex)) by lia.
      rewrite (Z.pow_add_r 2 48 (0 - ex)) by lia.
      change (2 ^ 48) with 281474976710656. ring. }
  assert (HU : m3 <= 25 * 2 ^ (2 - e3)).
  { apply Hbound; rewrite Hpow; [nia | intros H; contradiction H; reflexivity]. }
  apply at_most_rounded; try assumption; lia.
Qed.

(** Rounding a float at most 100 to an integer gives an integer at most 100. *)
Lemma round_at_most_100 (p : spec_float) :
  at_most 25 2 p -> exists n, Py.round p = Ok n /\ 0 <= n <= 100.
Proof.
  destruct p as [sp | sp | | [ | ] mp ep]; intros H; try contradiction.
  - exists 0. split; [reflexivity | lia].
  - cbn [at_most] in H. destruct H as [He Hm].
    eexists. split; [reflexivity | ]. cbn [cond_Zopp].
    unfold Py.round_half_even.
    destruct ep as [ | pe | pe].
    + change (2 ^ (2 - 0)) with 4 in Hm. lia.
    + assert (Hcases : Z.pos pe = 1 \/ Z.pos pe = 2) by lia.
      destruct Hcases as [E | E]; rewrite E in *.
      * change (2 ^ (2 - 1)) with 2 in Hm. change (2 ^ 1) with 2. lia.
      * change (2 ^ (2 - 2)) with 1 in Hm. change (2 ^ 2) with 4. lia.
    + replace (2 - Z.neg pe) with (2 + Z.pos pe) in Hm by lia.
      rewrite Z.pow_add_r in Hm by lia. change (2 ^ 2) with 4 in Hm.
      cbv zeta.
      set (d := 2 ^ Z.pos pe) in *.
      assert (Hd : 0 < d) by (subst d; apply Z.pow_pos_nonneg; lia).
      clearbody d.
      pose proof (Z.div_mod (Z.pos mp) d ltac:(lia)) as Hdm.
      pose proof (Z.mod_pos_bound (Z.pos mp) d Hd) as Hmod.
      set (qt := Z.pos mp / d) in *. set (rm := Z.pos mp mod d) in *.
      clearbody qt rm.
      assert (Hq : 0 <= qt <= 100) by nia.
      destruct (Z.compare_spec (2 * rm) d) as [Hc | Hc | Hc].
      * destruct (Z.even qt); [lia | ]. split; [lia | ].
        assert (qt <> 100) by nia. lia.
      * lia.
      * split; [lia | ]. assert (qt <> 100) by nia. lia.
Qed.

End FloatBounds.

(** ** What the dashboard builder computes *)

(** X1: for consistent counts the change of the "Verified" item is a
    percentage: an integer from 0 to 100. *)
Theorem verified_change_is_percentage (total_users verified_users : Z) :
  0 <= verified_users <= total_users ->
  exists n, verified_change total_users verified_users = Ok n /\ 0 <= n <= 100.
Proof.
  intros H. unfold verified_change.
  destruct (Z.gtb_spec total_users 0) as [Hpos | Hzero].
  - destruct (FloatBounds.int_true_divide_at_most_one verified_users total_users H Hpos)
      as (q & Eq & Bq).
    destruct (FloatBounds.float_mul_int_100_at_most q Bq) as (p & Ep & Bp).
    destruct (FloatBounds.round_at_most_100 p Bp) as (n & En & Hn).
    exists n. rewrite Eq. cbn [bind]. rewrite Ep. cbn [bind]. split; assumption.
  - exists 0. split; [reflexivity | lia].
Qed.

Lemma verified_change_is_percentage_witness :
  exists n, verified_change 3 2 = Ok n /\ 0 <= n <= 100.
Proof.
  apply (verified_change_is_percentage 3 2). lia.
Defined.

Lemma div_eucl_spec (a b : Z) : Z.div_eucl a b = (a / b, a mod b).
Proof. unfold Z.div, Z.modulo. destruct (Z.div_eucl a b); reflexivity. Qed.

(** [a / a] is the float one. *)
Lemma int_true_divide_same (a : positive) :
  Py.int_true_divide (Z.pos a) (Z.pos a) = Ok (S754_finite false 4503599627370496 (-52)).
Proof.
  unfold Py.int_true_divide. cbn [Z.eqb Z.abs Z.to_pos Z.ltb Z.compare].
  change Py.prec with 53. change Py.emax with 1024. cbn [SFdiv xorb].
  assert (Ecore : SFdiv_core_binary 53 1024 (Z.pos a) 0 (Z.pos a) 0
                  = (9007199254740992, -53, loc_Exact)).
  { unfold SFdiv_core_binary. cbv zeta.
    replace (Zdigits2 (Z.pos a) + 0 - (Zdigits2 (Z.pos a) + 0)) with 0 by lia.
    change (Z.min (fexp 53 1024 0) (0 - 0)) with (-53).
    change (0 - 0 - -53) with 53. cbv iota.
    rewrite Z.shiftl_mul_pow2 by lia. change (2 ^ 53) with 9007199254740992.
    rewrite div_eucl_spec.
    rewrite (Z.mul_comm (Z.pos a)), Z.div_mul, Z.mod_mul by lia.
    rewrite FloatBounds.new_location_zero. reflexivity. }
  rewrite Ecore. reflexivity.
Qed.

(** X2: whatever the number of users, when all of them are verified the change
    is exactly 100 and when none is it is exactly 0. *)
Theorem verified_change_extremes (total_users : Z) :
  0 < total_users ->
  verified_change total_users total_users = Ok 100 /\
  verified_change total_users 0 = Ok 0.
Proof.
  intros Hpos. unfold verified_change.
  apply Z.gtb_lt in Hpos. rewrite Hpos. apply Z.gtb_lt in Hpos.
  destruct total_users as [ | a | a]; try lia.
  split.
  - rewrite int_true_divide_same. reflexivity.
  - reflexivity.
Qed.

Lemma verified_change_extremes_witness :
  verified_change 7 7 = Ok 100 /\ verified_change 7 0 = Ok 0.
Proof.
  apply (verified_change_extremes 7). lia.
Defined.

Module FloatSigns.

Import FloatFacts.

Lemma SFdiv_core_nonneg (a b : positive) :
  0 <= fst (fst (SFdiv_core_binary 53 1024 (Z.pos a) 0 (Z.pos b) 0)).
Proof.
  unfold SFdiv_core_binary. cbv zeta.
  set (e' := Z.min (fexp 53 1024 (Zdigits2 (Z.pos a) + 0 - (Zdigits2 (Z.pos b) + 0))) (0 - 0)).
  set (m' := match 0 - 0 - e' with
             | 0 => Z.pos a
             | Z.pos _ => Z.shiftl (Z.pos a) (0 - 0 - e')
             | Z.neg _ => 0
             end).
  assert (Hm' : 0 <= m').
  { subst m'. destruct (0 - 0 - e') as [ | s | s]; try lia.
    apply Z.shiftl_nonneg. lia. }
  rewrite div_eucl_spec. cbn [fst]. apply Z.div_pos; lia.
Qed.

(** A float that is a zero, finite, or an infinity: anything but a NaN. *)
Lemma rounded_cases (s : bool) (m e : Z) :
  0 <= m ->
  (exists z, rounded s m e = S754_zero z) \/
  (exists z p x, rounded s m e = S754_finite z p x) \/
  (exists z, rounded s m e = S754_infinity z).
Proof.
  intros Hm. unfold rounded. destruct m as [ | p | p]; [ | | lia].
  - left. eexists; reflexivity.
  - destruct (e <=? 971); [right; left | right; right]; repeat eexists.
Qed.

(** The division of ints raises nothing but [OverflowError] when the divisor
    is positive, and returns a zero or a finite float when it returns. *)
Lemma int_true_divide_outcomes (v t : Z) :
  0 < t ->
  Py.int_true_divide v t = Raise OverflowError \/
  (exists z, Py.int_true_divide v t = Ok (S754_zero z)) \/
  (exists z p x, Py.int_true_divide v t = Ok (S754_finite z p x)).
Proof.
  intros Ht. unfold Py.int_true_divide.
  destruct (Z.eqb_spec t 0) as [E | _]; [lia | ].
  destruct t as [ | b | b]; try lia.
  assert (Hpos : forall (s : bool) (a : positive),
    let r := SFdiv Py.prec Py.emax (S754_finite s a 0) (S754_finite false b 0) in
    (exists z, r = S754_zero z) \/ (exists z p x, r = S754_finite z p x) \/
    (exists z, r = S754_infinity z)).
  { intros s a. change Py.prec with 53. change Py.emax with 1024. cbn [SFdiv].
    pose proof (SFdiv_core_nonneg a b) as Hq.
    destruct (SFdiv_core_binary 53 1024 (Z.pos a) 0 (Z.pos b) 0) as [[q e'] l].
    cbn [fst] in Hq.
    destruct (FloatBounds.binary_round_aux_spec (xorb s false) q e' l Hq)
      as (m3 & e3 & Er & Hm3 & _).
    rewrite Er. apply rounded_cases. exact Hm3. }
  destruct v as [ | a | a].
  - right; left. eexists; reflexivity.
  - cbn [Z.abs Z.to_pos]. change (Z.pos a <? 0) with false. change (Z.pos b <? 0) with false.
    destruct (Hpos false a) as [[z E] | [(z & p & x & E) | [z E]]]; rewrite E.
    + right; left. eexists; reflexivity.
    + right; right. repeat eexists.
    + left. reflexivity.
  - cbn [Z.abs Z.to_pos]. change (Z.neg a <? 0) with true. change (Z.pos b <? 0) with false.
    destruct (Hpos true a) as [[z E] | [(z & p & x & E) | [z E]]]; rewrite E.
    + right; left. eexists; reflexivity.
    + right; right. repeat eexists.
    + left. reflexivity.
Qed.

Lemma float_mul_int_100_outcomes (q : spec_float) :
  (exists z, q = S754_zero z) \/ (exists z p x, q = S754_finite z p x) ->
  exists r, Py.float_mul_int q 100 = Ok r /\
            (Py.round r = Raise OverflowError \/ exists n, Py.round r = Ok n).
Proof.
  intros Hq. unfold Py.float_mul_int. rewrite float_of_int_100. cbn [bind].
  eexists; split; [reflexivity | ].
  destruct Hq as [[z ->] | (z & p & x & ->)].
  - right. eexists; reflexivity.
  - change Py.prec with 53. change Py.emax with 1024. cbn [SFmul].
    destruct (FloatBounds.binary_round_aux_spec (xorb z false)
                (Z.pos (p * 7036874417766400)) (x + -46) loc_Exact)
      as (m3 & e3 & Er & Hm3 & _); [lia | ].
    rewrite Er.
    destruct (rounded_cases (xorb z false) m3 e3 Hm3)
      as [[z' E] | [(z' & p' & x' & E) | [z' E]]]; rewrite E.
    + right. eexists; reflexivity.
    + right. eexists; reflexivity.
    + left. reflexivity.
Qed.

End FloatSigns.

(** X3: whatever integers it is given, the dashboard builder either returns a
    document or raises [OverflowError]; it never divides by zero.  The
    overflow does happen when the verified count is out of all proportion to
    the total. *)
Theorem get_dashboard_spec_raises_only_overflow (total_users verified_users : Z)
    (recent_users : list dict) :
  ((exists doc, get_dashboard_spec total_users verified_users recent_users = Ok doc) \/
   get_dashboard_spec total_users verified_users recent_users = Raise OverflowError) /\
  get_dashboard_spec 1 (10 ^ 400) recent_users = Raise OverflowError.
Proof.
  split.
  - unfold get_dashboard_spec.
    assert (H : (exists n, verified_change total_users verified_users = Ok n) \/
                verified_change total_users verified_users = Raise OverflowError).
    { unfold verified_change.
      destruct (Z.gtb_spec total_users 0) as [Hpos | Hzero];
        [ | left; eexists; reflexivity].
      destruct (FloatSigns.int_true_divide_outcomes verified_users total_users Hpos)
        as [E | Hq].
      - right. rewrite E. reflexivity.
      - assert (Hq' : exists q, Py.int_true_divide verified_users total_users = Ok q /\
                        ((exists z, q = S754_zero z) \/
                         (exists z p x, q = S754_finite z p x))).
        { destruct Hq as [[z E] | (z & p & x & E)]; eexists; (split; [exact E | ]);
            [left | right]; repeat eexists. }
        destruct Hq' as (q & E & Hshape). rewrite E. cbn [bind].
        destruct (FloatSigns.float_mul_int_100_outcomes q Hshape) as (r & Er & Hr).
        rewrite Er. cbn [bind].
        destruct Hr as [Hr | [n Hr]]; [right | left; exists n]; exact Hr. }
    destruct H as [[n E] | E]; rewrite E; cbn [bind].
    + left. eexists; reflexivity.
    + right. reflexivity.
  - unfold get_dashboard_spec.
    assert (E : verified_change 1 (10 ^ 400) = Raise OverflowError)
      by (vm_compute; reflexivity).
    rewrite E. reflexivity.
Qed.

(** ** The dashboard and statistics handlers *)

Example utf8_characters :
  code_points "a—b" = 3 /\
  characters "a—b" = ["a"; "—"; "b"] /\
  len (VStr "—") = Ok 1 /\
  iterate (VStr "ab") = Ok [VStr "a"; VStr "b"].
Proof. repeat split; reflexivity. Qed.

Lemma fetch_users_ok (client : AsyncClient) (response : Response) (users : value) :
  client_get client "/users" = inr response ->
  status_code response = 200 -> body response = Some users ->
  fetch_users client = users.
Proof.
  intros E S B. unfold fetch_users, json. rewrite E. cbn [await bind].
  rewrite S, B. reflexivity.
Qed.

Lemma fetch_users_failed (client : AsyncClient) :
  (exists e, client_get client "/users" = inl e) \/
  (exists response, client_get client "/users" = inr response /\
                    (status_code response <> 200 \/ body response = None)) ->
  fetch_users client = VList [].
Proof.
  intros [[e E] | (response & E & H)]; unfold fetch_users, json; rewrite E.
  - destruct e; reflexivity.
  - cbn [await bind]. destruct (Z.eqb_spec (status_code response) 200) as [S | N].
    + destruct H as [N | B]; [contradiction | ]. rewrite B. reflexivity.
    + reflexivity.
Qed.

Lemma count_where_records (p : value -> bool) (key : string) (records : list dict) :
  count_where p key (map VDict records) = Ok (count_true p key records).
Proof.
  unfold count_true. induction records as [ | d rest IH]; [reflexivity | ].
  cbn [map count_where as_dict bind filter]. rewrite IH. cbn [bind].
  destruct (p (Py.get d key VNone)); cbn [List.length]; f_equal; lia.
Qed.

Lemma count_true_bounds (p : value -> bool) (key : string) (records : list dict) :
  0 <= count_true p key records <= Z.of_nat (List.length records).
Proof.
  unfold count_true.
  pose proof (filter_length_le (fun d => p (Py.get d key VNone)) records). lia.
Qed.

Lemma count_true_complement (p : value -> bool) (key : string) (records : list dict) :
  count_true p key records + count_true (fun x => negb (p x)) key records
    = Z.of_nat (List.length records).
Proof.
  unfold count_true. induction records as [ | d rest IH]; [reflexivity | ].
  cbn [filter]. destruct (p (Py.get d key VNone)); cbn [negb List.length]; lia.
Qed.

Lemma dicts_records (records : list dict) : dicts (map VDict records) = records.
Proof.
  induction records as [ | d rest IH]; [reflexivity | ].
  cbn [map dicts]. rewrite IH. reflexivity.
Qed.

Lemma all_dicts_records (l : list value) :
  forallb is_dict l = true -> l = map VDict (dicts l).
Proof.
  induction l as [ | v rest IH]; [reflexivity | ].
  cbn [forallb]. intros H. apply andb_true_iff in H. destruct H as [Hv Hrest].
  destruct v as [ | b | n | f | s | l | d]; try discriminate Hv.
  cbn [dicts map]. rewrite <- (IH Hrest). reflexivity.
Qed.

Lemma not_all_dicts (p : value -> bool) (key : string) (l : list value) :
  forallb is_dict l = false -> count_where p key l = Raise AttributeError.
Proof.
  induction l as [ | v rest IH]; [discriminate | ].
  cbn [forallb]. intros H.
  destruct v as [ | b | n | f | s | l | d]; try reflexivity.
  cbn [is_dict andb] in H. cbn [count_where as_dict bind]. rewrite (IH H). reflexivity.
Qed.

Lemma characters_nonempty (c : ascii) (s : string) :
  exists x xs, characters (String c s) = x :: xs.
Proof.
  cbn [characters]. cbv zeta.
  destruct (characters s) as [ | x xs]; [repeat eexists | ].
  destruct (match s with String c' _ => continuation c' | EmptyString => false end);
    repeat eexists.
Qed.

(** The dashboard of the users the upstream lists. *)
Lemma ui_dashboard_of_records (client : AsyncClient) (records : list dict) :
  fetch_users client = VList (map VDict records) ->
  ui_dashboard client
    = get_dashboard_spec (Z.of_nat (List.length records))
        (count_true truthy "email_verified" records) (firstn 5 records).
Proof.
  intros E. unfold ui_dashboard. rewrite E. cbv zeta.
  cbn [len bind]. rewrite length_map.
  unfold count_users. cbn [iterate bind]. rewrite count_where_records. cbn [bind].
  destruct records as [ | d rest]; [reflexivity | ].
  cbn [map truthy slice5 bind]. rewrite <- (map_cons VDict), firstn_map, dicts_records.
  reflexivity.
Qed.

Lemma api_stats_of_records (client : AsyncClient) (records : list dict) :
  fetch_users client = VList (map VDict records) ->
  api_stats client
    = Ok (VDict [
        "total_users" ~> VInt (Z.of_nat (List.length records));
        "verified_users" ~> VInt (count_true truthy "email_verified" records);
        "unverified_users"
          ~> VInt (count_true (fun x => negb (truthy x)) "email_verified" records);
        "two_factor_enabled" ~> VInt (count_true truthy "two_factor_enabled" records)
      ]).
Proof.
  intros E. unfold api_stats. rewrite E. cbv zeta.
  cbn [len bind]. rewrite length_map.
  unfold count_users. cbn [iterate bind]. rewrite !count_where_records. reflexivity.
Qed.

(** What both handlers reduce to when the users are countable. *)
Lemma countable_handlers (client : AsyncClient) :
  countable (fetch_users client) = true ->
  exists records,
    ui_dashboard client
      = get_dashboard_spec (Z.of_nat (List.length records))
          (count_true truthy "email_verified" records) (firstn 5 records) /\
    api_stats client
      = Ok (VDict [
          "total_users" ~> VInt (Z.of_nat (List.length records));
          "verified_users" ~> VInt (count_true truthy "email_verified" records);
          "unverified_users"
            ~> VInt (count_true (fun x => negb (truthy x)) "email_verified" records);
          "two_factor_enabled" ~> VInt (count_true truthy "two_factor_enabled" records)
        ]).
Proof.
  intros H. destruct (fetch_users client) as [ | b | n | f | s | l | d] eqn:E;
    try discriminate H.
  - destruct s as [ | c s]; [ | discriminate H].
    exists []. unfold ui_dashboard, api_stats. rewrite E. split; reflexivity.
  - cbn [countable] in H. apply all_dicts_records in H.
    exists (dicts l). rewrite H in E.
    split; [apply ui_dashboard_of_records | apply api_stats_of_records]; exact E.
  - destruct d as [ | kv d]; [ | discriminate H].
    exists []. unfold ui_dashboard, api_stats. rewrite E. split; reflexivity.
Qed.

(** What both handlers raise when the users are not countable. *)
Lemma uncountable_handlers (client : AsyncClient) :
  countable (fetch_users client) = false ->
  exists e,
    (e = AttributeError \/ e = TypeError "object has no len()") /\
    ui_dashboard client = Raise e /\ api_stats client = Raise e.
Proof.
  intros H. unfold ui_dashboard, api_stats.
  destruct (fetch_users client) as [ | b | n | f | s | l | d];
    try (exists (TypeError "object has no len()");
         split; [right; reflexivity | split; reflexivity]).
  - destruct s as [ | c s]; [discriminate H | ].
    exists AttributeError. split; [left; reflexivity | ].
    cbv zeta. cbn [len bind]. unfold count_users. cbn [iterate bind].
    destruct (characters_nonempty c s) as (x & xs & Ex). rewrite Ex.
    split; reflexivity.
  - cbn [countable] in H. exists AttributeError. split; [left; reflexivity | ].
    cbv zeta. cbn [len bind]. unfold count_users. cbn [iterate bind].
    rewrite (not_all_dicts _ _ l H). split; reflexivity.
  - destruct d as [ | [k x] d]; [discriminate H | ].
    exists AttributeError. split; [left; reflexivity | split; reflexivity].
Qed.

Lemma get_dashboard_spec_of_counts (records : list dict) :
  exists doc change,
    get_dashboard_spec (Z.of_nat (List.length records))
      (count_true truthy "email_verified" records) (firstn 5 records) = Ok doc /\
    at_path doc (stat "Total Users" "value")
      = Some (VInt (Z.of_nat (List.length records))) /\
    at_path doc (stat "Verified" "value")
      = Some (VInt (count_true truthy "email_verified" records)) /\
    at_path doc (stat "Unverified" "value")
      = Some (VInt (count_true (fun x => negb (truthy x)) "email_verified" records)) /\
    at_path doc (stat "Verified" "change") = Some (VInt change) /\
    0 <= change <= 100 /\
    well_formed Node doc = true.
Proof.
  pose proof (count_true_bounds truthy "email_verified" records) as Hb.
  pose proof (count_true_complement truthy "email_verified" records) as Hc.
  destruct (verified_change_is_percentage _ _ Hb) as (n & En & Hn).
  unfold get_dashboard_spec. rewrite En. cbn [bind].
  eexists. exists n.
  split; [reflexivity | ]. split; [reflexivity | ]. split; [reflexivity | ].
  split; [ | split; [reflexivity | split; [exact Hn | reflexivity]]].
  replace (count_true (fun x => negb (truthy x)) "email_verified" records)
    with (Z.of_nat (List.length records) - count_true truthy "email_verified" records)
    by lia.
  reflexivity.
Qed.

(** X4: when the upstream lists its users as JSON objects, the dashboard page
    is returned, well-formed, with the number of records as Total Users, the
    number of records whose [email_verified] is truthy as Verified, the number
    of the others as Unverified and a change from 0 to 100; [GET /api/users],
    to which the page's table is bound, returns exactly these records. *)
Theorem ui_dashboard_counts_records (client : AsyncClient) (response : Response)
    (records : list dict) :
  client_get client "/users" = inr response ->
  status_code response = 200 ->
  body response = Some (VList (map VDict records)) ->
  api_users client = Ok (VList (map VDict records)) /\
  exists doc change,
    ui_dashboard client = Ok doc /\
    at_path doc (stat "Total Users" "value")
      = Some (VInt (Z.of_nat (List.length records))) /\
    at_path doc (stat "Verified" "value")
      = Some (VInt (count_true truthy "email_verified" records)) /\
    at_path doc (stat "Unverified" "value")
      = Some (VInt (count_true (fun x => negb (truthy x)) "email_verified" records)) /\
    at_path doc (stat "Verified" "change") = Some (VInt change) /\
    0 <= change <= 100 /\
    well_formed Node doc = true.
Proof.
  intros E S B. split.
  - unfold api_users, json. rewrite E. cbn [await bind]. rewrite S, B.
    cbn [Z.eqb Pos.eqb negb try_except validated list_of].
    assert (F : forallb dict_any (map VDict records) = true)
      by (clear; induction records as [ | d rest IH]; [reflexivity | exact IH]).
    rewrite F. reflexivity.
  - rewrite (ui_dashboard_of_records client records (fetch_users_ok _ _ _ E S B)).
    apply get_dashboard_spec_of_counts.
Qed.

Lemma ui_dashboard_counts_records_witness :
  exists doc,
    ui_dashboard
      (mock_client (answers 200 (Some (VList (map VDict
         [["email" ~> "a@b.com"; "email_verified" ~> true];
          ["email" ~> "c@d.com"; "email_verified" ~> false];
          ["email" ~> "e@f.com"]]))))) = Ok doc /\
    at_path doc (stat "Total Users" "value") = Some (VInt 3) /\
    at_path doc (stat "Verified" "value") = Some (VInt 1) /\
    at_path doc (stat "Unverified" "value") = Some (VInt 2).
Proof.
  destruct (ui_dashboard_counts_records
              (mock_client (answers 200 (Some (VList (map VDict
                 [["email" ~> "a@b.com"; "email_verified" ~> true];
                  ["email" ~> "c@d.com"; "email_verified" ~> false];
                  ["email" ~> "e@f.com"]])))))
              {| status_code := 200;
                 body := Some (VList (map VDict
                   [["email" ~> "a@b.com"; "email_verified" ~> true];
                    ["email" ~> "c@d.com"; "email_verified" ~> false];
                    ["email" ~> "e@f.com"]])) |}
              [["email" ~> "a@b.com"; "email_verified" ~> true];
               ["email" ~> "c@d.com"; "email_verified" ~> false];
               ["email" ~> "e@f.com"]]
              eq_refl eq_refl eq_refl)
    as (_ & doc & change & Hdoc & Ht & Hv & Hu & _).
  exists doc. repeat split; assumption.
Defined.

(** X5: when the upstream call raises, answers with another status than 200,
    or answers 200 with a body that is not JSON, the dashboard page is still
    returned: the page of no users, with all counts and the change at 0. *)
Theorem ui_dashboard_degrades (client : AsyncClient) :
  (exists e, client_get client "/users" = inl e) \/
  (exists response, client_get client "/users" = inr response /\
                    (status_code response <> 200 \/ body response = None)) ->
  exists doc,
    ui_dashboard client = Ok doc /\
    get_dashboard_spec 0 0 [] = Ok doc /\
    at_path doc (stat "Total Users" "value") = Some (VInt 0) /\
    at_path doc (stat "Verified" "value") = Some (VInt 0) /\
    at_path doc (stat "Unverified" "value") = Some (VInt 0) /\
    at_path doc (stat "Verified" "change") = Some (VInt 0).
Proof.
  intros H. apply fetch_users_failed in H.
  unfold ui_dashboard. rewrite H.
  eexists. repeat split; reflexivity.
Qed.

Lemma ui_dashboard_degrades_witness :
  (exists doc, ui_dashboard (mock_client (fails "timed out")) = Ok doc /\
               get_dashboard_spec 0 0 [] = Ok doc) /\
  (exists doc, ui_dashboard (mock_client (answers 500 None)) = Ok doc /\
               get_dashboard_spec 0 0 [] = Ok doc).
Proof.
  split.
  - destruct (ui_dashboard_degrades (mock_client (fails "timed out")))
      as (doc & H1 & H2 & _).
    + left. exists (ClientHTTPError "timed out"). reflexivity.
    + exists doc. split; assumption.
  - destruct (ui_dashboard_degrades (mock_client (answers 500 None)))
      as (doc & H1 & H2 & _).
    + right. exists {| status_code := 500; body := None |}.
      split; [reflexivity | left; discriminate].
    + exists doc. split; assumption.
Defined.

(** X6: the dashboard page answers 200 or 500 and nothing else.  It is
    returned exactly when the users it counts are a list of JSON objects, an
    empty object or an empty string; any other body of an upstream 200 (a
    number, null, a list with an element that is not an object, a non-empty
    object or string) makes the counting raise [TypeError] or
    [AttributeError], which nothing catches. *)
Theorem ui_dashboard_answers (client : AsyncClient) :
  (countable (fetch_users client) = true ->
   exists doc, ui_dashboard client = Ok doc /\ well_formed Node doc = true) /\
  (countable (fetch_users client) = false ->
   (ui_dashboard client = Raise AttributeError \/
    ui_dashboard client = Raise (TypeError "object has no len()")) /\
   http_status (ui_dashboard client) = 500).
Proof.
  split; intros H.
  - destruct (countable_handlers client H) as (records & Ed & _).
    destruct (get_dashboard_spec_of_counts records) as (doc & change & Hdoc & Hrest).
    exists doc. rewrite Ed. split; [exact Hdoc | apply Hrest].
  - destruct (uncountable_handlers client H) as (e & He & Ed & _).
    rewrite Ed. destruct He as [-> | ->]; split; try reflexivity;
      [left | right]; reflexivity.
Qed.

Lemma ui_dashboard_answers_witness :
  (exists doc, ui_dashboard (mock_client (answers 200 (Some (VList [VDict sample_user])))) = Ok doc) /\
  ui_dashboard (mock_client (answers 200 (Some (VList [VDict sample_user; VInt 1]))))
    = Raise AttributeError /\
  http_status (ui_dashboard (mock_client (answers 200 (Some VNone)))) = 500 /\
  http_status (ui_dashboard (mock_client (answers 200 (Some (VDict ["detail" ~> "x"]))))) = 500.
Proof.
  split; [ | split; [ | split]].
  - destruct (ui_dashboard_answers
                (mock_client (answers 200 (Some (VList [VDict sample_user])))))
      as (H & _).
    destruct (H eq_refl) as (doc & Hdoc & _). exists doc. exact Hdoc.
  - destruct (ui_dashboard_answers
                (mock_client (answers 200 (Some (VList [VDict sample_user; VInt 1])))))
      as (_ & H).
    destruct (H eq_refl) as ([E | E] & _); [exact E | discriminate E].
  - destruct (ui_dashboard_answers (mock_client (answers 200 (Some VNone)))) as (_ & H).
    apply (H eq_refl).
  - destruct (ui_dashboard_answers
                (mock_client (answers 200 (Some (VDict ["detail" ~> "x"]))))) as (_ & H).
    apply (H eq_refl).
Defined.

(** X7: when the upstream lists its users as JSON objects, the statistics are
    returned and are consistent: the total is the number of records, verified
    and unverified add up to the total, and the two-factor count is between 0
    and the total. *)
Theorem api_stats_counts_records (client : AsyncClient) (response : Response)
    (records : list dict) :
  client_get client "/users" = inr response ->
  status_code response = 200 ->
  body response = Some (VList (map VDict records)) ->
  exists total verified unverified two_factor,
    api_stats client
      = Ok (VDict ["total_users" ~> VInt total;
                   "verified_users" ~> VInt verified;
                   "unverified_users" ~> VInt unverified;
                   "two_factor_enabled" ~> VInt two_factor]) /\
    total = Z.of_nat (List.length records) /\
    verified = count_true truthy "email_verified" records /\
    two_factor = count_true truthy "two_factor_enabled" records /\
    0 <= verified /\ 0 <= unverified /\
    verified + unverified = total /\
    0 <= two_factor <= total.
Proof.
  intros E S B.
  rewrite (api_stats_of_records client records (fetch_users_ok _ _ _ E S B)).
  pose proof (count_true_bounds truthy "email_verified" records).
  pose proof (count_true_bounds (fun x => negb (truthy x)) "email_verified" records).
  pose proof (count_true_bounds truthy "two_factor_enabled" records).
  pose proof (count_true_complement truthy "email_verified" records).
  do 4 eexists. split; [reflexivity | ].
  repeat split; try reflexivity; lia.
Qed.

Lemma api_stats_counts_records_witness :
  api_stats
    (mock_client (answers 200 (Some (VList (map VDict
       [["email" ~> "a@b.com"; "email_verified" ~> true; "two_factor_enabled" ~> 1];
        ["email" ~> "c@d.com"; "email_verified" ~> VNone];
        ["email" ~> "e@f.com"; "email_verified" ~> "yes"]])))))
  = Ok (VDict ["total_users" ~> VInt 3;
               "verified_users" ~> VInt 2;
               "unverified_users" ~> VInt 1;
               "two_factor_enabled" ~> VInt 1]).
Proof.
  destruct (api_stats_counts_records
              (mock_client (answers 200 (Some (VList (map VDict
                 [["email" ~> "a@b.com"; "email_verified" ~> true;
                   "two_factor_enabled" ~> 1];
                  ["email" ~> "c@d.com"; "email_verified" ~> VNone];
                  ["email" ~> "e@f.com"; "email_verified" ~> "yes"]])))))
              {| status_code := 200;
                 body := Some (VList (map VDict
                   [["email" ~> "a@b.com"; "email_verified" ~> true;
                     "two_factor_enabled" ~> 1];
                    ["email" ~> "c@d.com"; "email_verified" ~> VNone];
                    ["email" ~> "e@f.com"; "email_verified" ~> "yes"]])) |}
              [["email" ~> "a@b.com"; "email_verified" ~> true;
                "two_factor_enabled" ~> 1];
               ["email" ~> "c@d.com"; "email_verified" ~> VNone];
               ["email" ~> "e@f.com"; "email_verified" ~> "yes"]]
              eq_refl eq_refl eq_refl)
    as (total & verified & unverified & two_factor & Hs & Ht & Hv & H2 & _ & _ & Hsum & _).
  rewrite Hs. replace unverified with (total - verified) by lia.
  subst total verified two_factor. reflexivity.
Defined.

(** X8: when the upstream call raises, answers with another status than 200,
    or answers 200 with a body that is not JSON, the statistics are returned
    with all four counts at 0. *)
Theorem api_stats_degrades (client : AsyncClient) :
  (exists e, client_get client "/users" = inl e) \/
  (exists response, client_get client "/users" = inr response /\
                    (status_code response <> 200 \/ body response = None)) ->
  api_stats client
    = Ok (VDict ["total_users" ~> VInt 0;
                 "verified_users" ~> VInt 0;
                 "unverified_users" ~> VInt 0;
                 "two_factor_enabled" ~> VInt 0]).
Proof.
  intros H. apply fetch_users_failed in H.
  unfold api_stats. rewrite H. reflexivity.
Qed.

Lemma api_stats_degrades_witness :
  api_stats (mock_client (answers 503 (Some (VDict ["detail" ~> "down"]))))
    = Ok (VDict ["total_users" ~> VInt 0;
                 "verified_users" ~> VInt 0;
                 "unverified_users" ~> VInt 0;
                 "two_factor_enabled" ~> VInt 0]).
Proof.
  apply (api_stats_degrades
           (mock_client (answers 503 (Some (VDict ["detail" ~> "down"]))))).
  right. exists {| status_code := 503; body := Some (VDict ["detail" ~> "down"]) |}.
  split; [reflexivity | left; discriminate].
Defined.

(** X9: the dashboard page and the statistics stand and fall together and
    agree: for any upstream, one is returned exactly when the other is, and
    then the page's Total Users, Verified and Unverified values are the
    statistics' total_users, verified_users and unverified_users. *)
Theorem ui_dashboard_agrees_with_api_stats (client : AsyncClient) :
  ((exists doc, ui_dashboard client = Ok doc) <->
   (exists stats, api_stats client = Ok stats)) /\
  forall doc stats,
    ui_dashboard client = Ok doc -> api_stats client = Ok stats ->
    exists total verified unverified,
      Py.item stats "total_users" = Some (VInt total) /\
      Py.item stats "verified_users" = Some (VInt verified) /\
      Py.item stats "unverified_users" = Some (VInt unverified) /\
      at_path doc (stat "Total Users" "value") = Some (VInt total) /\
      at_path doc (stat "Verified" "value") = Some (VInt verified) /\
      at_path doc (stat "Unverified" "value") = Some (VInt unverified).
Proof.
  destruct (countable (fetch_users client)) eqn:Hc.
  - destruct (countable_handlers client Hc) as (records & Ed & Es).
    destruct (get_dashboard_spec_of_counts records)
      as (doc0 & change & Hdoc & Ht & Hv & Hu & _).
    rewrite Ed, Es, Hdoc. split.
    + split; intros _; eexists; reflexivity.
    + intros doc stats Hd Hs. injection Hd as <-. injection Hs as <-.
      do 3 eexists. repeat split; try reflexivity; assumption.
  - destruct (uncountable_handlers client Hc) as (e & _ & Ed & Es).
    rewrite Ed, Es. split.
    + split; intros [x H]; discriminate H.
    + intros doc stats Hd. discriminate Hd.
Qed.

Lemma ui_dashboard_agrees_with_api_stats_witness :
  exists doc stats,
    ui_dashboard (mock_client (answers 200 (Some (VList [VDict sample_user])))) = Ok doc /\
    api_stats (mock_client (answers 200 (Some (VList [VDict sample_user])))) = Ok stats /\
    Py.item stats "total_users" = Some (VInt 1) /\
    at_path doc (stat "Total Users" "value") = Some (VInt 1).
Proof.
  destruct (ui_dashboard_agrees_with_api_stats
              (mock_client (answers 200 (Some (VList [VDict sample_user])))))
    as (Hiff & Hagree).
  assert (Hs : api_stats (mock_client (answers 200 (Some (VList [VDict sample_user]))))
               = Ok (VDict ["total_users" ~> VInt 1;
                            "verified_users" ~> VInt 0;
                            "unverified_users" ~> VInt 1;
                            "two_factor_enabled" ~> VInt 0])) by reflexivity.
  destruct (proj2 Hiff (ex_intro _ _ Hs)) as [doc Hd].
  destruct (Hagree doc _ Hd Hs) as (total & verified & unverified & H1 & _ & _ & H4 & _).
  exists doc. eexists. split; [exact Hd | ]. split; [exact Hs | ].
  split; [reflexivity | ].
  injection H1 as <-. exact H4.
Defined.

(** ** The single-record and mutation handlers *)

(** X10: [GET /api/users/{email}] returns the body of an upstream 200 when it
    is a JSON object and returns nothing else; it answers 404 exactly when the
    upstream answers with another status and 502 exactly when the upstream
    call raises an [httpx.HTTPError].  An upstream 200 whose body is JSON but
    no object fails the validation of the declared return type, and one whose
    body is not JSON lets the [JSONDecodeError] through. *)
Theorem api_user_answers (client : AsyncClient) (email : string) :
  let upstream := client_get client (String.append "/users/" email) in
  let answer := api_user client email in
  (forall user,
     answer = Ok user <->
     exists response record,
       upstream = inr response /\ status_code response = 200 /\
       body response = Some user /\ user = VDict record) /\
  (forall response user,
     upstream = inr response -> status_code response = 200 ->
     body response = Some user -> dict_any user = false ->
     answer = Raise ResponseValidationError) /\
  (forall response,
     upstream = inr response -> status_code response = 200 ->
     body response = None ->
     answer = Raise JSONDecodeError) /\
  (http_status answer = 404 <->
   exists response, upstream = inr response /\ status_code response <> 200) /\
  (http_status answer = 502 <-> exists msg, upstream = inl (ClientHTTPError msg)).
Proof.
  intros upstream answer. subst answer. unfold api_user. fold upstream.
  split; [ | split; [ | split; [ | split]]].
  - intros user. split.
    + intros H. destruct upstream as [[msg | msg] | response];
        [discriminate H | discriminate H | ].
      revert H. run_handler.
      destruct (Z.eqb_spec (status_code response) 200) as [S | N]; cbn [negb];
        [ | intros H; discriminate H].
      destruct (body response) as [[ | b | n | x | s | l | d] | ] eqn:B;
        run_handler; intros H; try discriminate H.
      injection H as <-. exists response, d. repeat split; assumption.
    + intros (response & record & E & S & B & ->). rewrite E. run_handler.
      rewrite S, B. reflexivity.
  - intros response user E S B F. rewrite E. run_handler. rewrite S, B.
    cbn [Z.eqb Pos.eqb negb try_except validated]. rewrite F. reflexivity.
  - intros response E S B. rewrite E. run_handler. rewrite S, B. reflexivity.
  - split.
    + intros H. destruct upstream as [[msg | msg] | response].
      * cbn in H. discriminate H.
      * cbn in H. discriminate H.
      * exists response. split; [reflexivity | ].
        intros S. revert H. run_handler. rewrite S.
        destruct (body response) as [[ | b | n | x | s | l | d] | ];
          cbn; intros H; discriminate H.
    + intros (response & E & N). rewrite E. run_handler.
      destruct (Z.eqb_spec (status_code response) 200); [contradiction | reflexivity].
  - split.
    + intros H. destruct upstream as [[msg | msg] | response].
      * exists msg; reflexivity.
      * cbn in H. discriminate H.
      * revert H. run_handler.
        destruct (Z.eqb_spec (status_code response) 200) as [S | N]; run_handler.
        -- destruct (body response) as [[ | b | n | x | s | l | d] | ];
             cbn; intros H; discriminate H.
        -- cbn. intros H; discriminate H.
    + intros [msg E]. rewrite E. reflexivity.
Qed.

Lemma api_user_answers_witness :
  api_user (mock_client (answers 200 (Some (VDict sample_user)))) "a@b.com"
    = Ok (VDict sample_user) /\
  api_user (mock_client (answers 200 (Some (VList [])))) "a@b.com"
    = Raise ResponseValidationError /\
  api_user (mock_client (answers 200 None)) "a@b.com" = Raise JSONDecodeError /\
  http_status (api_user (mock_client (answers 500 None)) "a@b.com") = 404 /\
  http_status (api_user (mock_client (fails "timed out")) "a@b.com") = 502.
Proof.
  split; [ | split; [ | split; [ | split]]].
  - pose proof (api_user_answers (mock_client (answers 200 (Some (VDict sample_user))))
                  "a@b.com") as (H & _).
    apply H. exists {| status_code := 200; body := Some (VDict sample_user) |}, sample_user.
    repeat split; reflexivity.
  - pose proof (api_user_answers (mock_client (answers 200 (Some (VList []))))
                  "a@b.com") as (_ & H & _).
    apply (H {| status_code := 200; body := Some (VList []) |} (VList [])); reflexivity.
  - pose proof (api_user_answers (mock_client (answers 200 None)) "a@b.com")
      as (_ & _ & H & _).
    apply (H {| status_code := 200; body := None |}); reflexivity.
  - pose proof (api_user_answers (mock_client (answers 500 None)) "a@b.com")
      as (_ & _ & _ & H & _).
    apply H. exists {| status_code := 500; body := None |}.
    split; [reflexivity | discriminate].
  - pose proof (api_user_answers (mock_client (fails "timed out")) "a@b.com")
      as (_ & _ & _ & _ & H).
    apply H. exists "timed out". reflexivity.
Defined.





(** X13: [GET /ui/users/{id}] returns a page in one case only, an upstream 200
    whose body is a JSON object, and the page is then the well-formed edit
    page of that object. *)
Theorem ui_user_edit_returns_only_fetched (py_str : value -> string)
    (client : AsyncClient) (user_id : string) (doc : value) :
  ui_user_edit py_str client user_id = Ok doc ->
  exists response user,
    client_get client (String.append "/users/" user_id) = inr response /\
    status_code response = 200 /\
    body response = Some (VDict user) /\
    doc = get_user_edit_spec py_str user /\
    well_formed Node doc = true.
Proof.
  unfold ui_user_edit.
  destruct (client_get client (String.append "/users/" user_id))
    as [[msg | msg] | response]; [intros H; discriminate H | intros H; discriminate H | ].
  run_handler.
  destruct (Z.eqb_spec (status_code response) 200) as [S | N]; cbn [negb];
    [ | intros H; discriminate H].
  destruct (body response) as [[ | b | n | x | s | l | user] | ] eqn:B;
    run_handler; intros H; try discriminate H.
  injection H as <-. exists response, user.
  split; [reflexivity | ]. split; [exact S | ]. split; [exact B | ].
  split; reflexivity.
Qed.

Lemma ui_user_edit_returns_only_fetched_witness :
  exists response user,
    client_get (mock_client (answers 200 (Some (VDict sample_user))))
      (String.append "/users/" "a@b.com") = inr response /\
    status_code response = 200 /\
    body response = Some (VDict user) /\
    well_formed Node (get_user_edit_spec sample_str sample_user) = true.
Proof.
  destruct (ui_user_edit_returns_only_fetched sample_str
              (mock_client (answers 200 (Some (VDict sample_user)))) "a@b.com"
              (get_user_edit_spec sample_str sample_user) eq_refl)
    as (response & user & H1 & H2 & H3 & H4 & H5).
  exists response, user. repeat split; assumption.
Defined.

(** ** What the edit page takes from the record *)

(** X14: for a record whose email is the string [e], the edit page is
    described by [e], shows [e] in its read-only email field, submits the form
    with PUT and deletes with DELETE at ["/api/users/" + e], and asks for
    confirmation with [e] in the prompt, whatever else the record holds. *)
Theorem edit_spec_addresses_email (py_str : value -> string) (user : dict)
    (e : string) :
  Py.lookup "email" user = Some (VStr e) ->
  let doc := get_user_edit_spec py_str user in
  at_path doc [Key "description"] = Some (VStr e) /\
  at_path doc (edit_form_email "placeholder") = Some (VStr e) /\
  at_path doc (edit_form "method") = Some (VStr "PUT") /\
  at_path doc (edit_form "endpoint") = Some (VStr (String.append "/api/users/" e)) /\
  at_path doc (danger_delete_entry "method") = Some (VStr "DELETE") /\
  at_path doc (danger_delete_entry "endpoint")
    = Some (VStr (String.append "/api/users/" e)) /\
  at_path doc (danger_delete_entry "confirm")
    = Some (VStr (String.append "Are you sure you want to delete "
                                (String.append e "?"))).
Proof.
  intros H doc. subst doc. unfold get_user_edit_spec, Py.get. rewrite H.
  repeat split; reflexivity.
Qed.

Lemma edit_spec_addresses_email_witness :
  at_path (get_user_edit_spec sample_str sample_user) (edit_form "endpoint")
    = Some (VStr "/api/users/a@b.com") /\
  at_path (get_user_edit_spec sample_str sample_user) (danger_delete_entry "confirm")
    = Some (VStr "Are you sure you want to delete a@b.com?").
Proof.
  destruct (edit_spec_addresses_email sample_str sample_user "a@b.com" eq_refl)
    as (_ & _ & _ & H1 & _ & _ & H2).
  split; assumption.
Defined.

(** X15: for a record without an email the edit page is still built: its
    description and email field are empty, the prompt speaks of "this user",
    and both the form and the Delete button address ["/api/users/"], the path
    with nothing after the slash. *)
Theorem edit_spec_without_email (py_str : value -> string) (user : dict) :
  Py.lookup "email" user = None ->
  let doc := get_user_edit_spec py_str user in
  well_formed Node doc = true /\
  at_path doc [Key "description"] = Some (VStr "") /\
  at_path doc (edit_form_email "placeholder") = Some (VStr "") /\
  at_path doc (edit_form "endpoint") = Some (VStr "/api/users/") /\
  at_path doc (danger_delete_entry "endpoint") = Some (VStr "/api/users/") /\
  at_path doc (danger_delete_entry "confirm")
    = Some (VStr "Are you sure you want to delete this user?").
Proof.
  intros H doc. subst doc. unfold get_user_edit_spec, Py.get. rewrite H.
  repeat split; reflexivity.
Qed.

Lemma edit_spec_without_email_witness :
  at_path (get_user_edit_spec sample_str ["email_verified" ~> true])
    (danger_delete_entry "endpoint") = Some (VStr "/api/users/").
Proof.
  apply (edit_spec_without_email sample_str ["email_verified" ~> true] eq_refl).
Defined.

(** X16: the flags and timestamps of the edit page are the record's own
    values whenever the record has the key, whatever the value is: a
    timestamp that is null is shown as null.  The defaults, false and the em
    dash, are used only for a key that is absent. *)
Theorem edit_spec_passes_values_through (py_str : value -> string) (user : dict) :
  let doc := get_user_edit_spec py_str user in
  (forall x, Py.lookup "email_verified" user = Some x ->
             at_path doc (List.app (edit_form "initialValues") [Key "email_verified"])
               = Some x) /\
  (forall x, Py.lookup "two_factor_enabled" user = Some x ->
             at_path doc (List.app (edit_form "initialValues") [Key "two_factor_enabled"])
               = Some x) /\
  (forall x, Py.lookup "created_at" user = Some x ->
             at_path doc (metadata_text 0 1) = Some x) /\
  (forall x, Py.lookup "updated_at" user = Some x ->
             at_path doc (metadata_text 1 1) = Some x) /\
  (Py.lookup "email_verified" user = None ->
   at_path doc (List.app (edit_form "initialValues") [Key "email_verified"])
     = Some (VBool false)) /\
  (Py.lookup "two_factor_enabled" user = None ->
   at_path doc (List.app (edit_form "initialValues") [Key "two_factor_enabled"])
     = Some (VBool false)) /\
  (Py.lookup "created_at" user = None ->
   at_path doc (metadata_text 0 1) = Some (VStr "—")) /\
  (Py.lookup "updated_at" user = None ->
   at_path doc (metadata_text 1 1) = Some (VStr "—")).
Proof.
  intros doc. subst doc. unfold get_user_edit_spec, Py.get.
  repeat split; intros; rewrite H; reflexivity.
Qed.

Lemma edit_spec_passes_values_through_witness :
  at_path (get_user_edit_spec sample_str ["email" ~> "a@b.com"; "created_at" ~> VNone])
    (metadata_text 0 1) = Some VNone /\
  at_path (get_user_edit_spec sample_str ["email" ~> "a@b.com"; "created_at" ~> VNone])
    (metadata_text 1 1) = Some (VStr "—").
Proof.
  pose proof (edit_spec_passes_values_through sample_str
                ["email" ~> "a@b.com"; "created_at" ~> VNone])
    as (_ & _ & H1 & _ & _ & _ & _ & H2).
  split; [apply (H1 VNone); reflexivity | apply H2; reflexivity].
Defined.

(** X17: whatever the record, and whatever its email is, the form of the edit
    page and its Delete button address one and the same endpoint, which
    starts with ["/api/users/"]. *)
Theorem edit_spec_one_endpoint (py_str : value -> string) (user : dict) :
  exists rest,
    at_path (get_user_edit_spec py_str user) (edit_form "endpoint")
      = Some (VStr (String.append "/api/users/" rest)) /\
    at_path (get_user_edit_spec py_str user) (danger_delete_entry "endpoint")
      = Some (VStr (String.append "/api/users/" rest)).
Proof.
  exists (format py_str (Py.get user "email" (VStr ""))). split; reflexivity.
Qed.

(** ** Routes that need no validation *)

(** The bodies of the page routes, of the statistics and of the delete route
    return nothing but dicts, which fit their declared return types. *)
Lemma dict_routes_fit (py_str : value -> string) (status_phrase : Z -> option string)
    (client : AsyncClient) (id : string) (v : value) :
  (ui_dashboard client = Ok v -> dict_any v = true) /\
  (ui_users = Ok v -> dict_any v = true) /\
  (ui_user_edit py_str client id = Ok v -> dict_any v = true) /\
  (api_stats client = Ok v -> dict_any v = true) /\
  (api_delete_user status_phrase client id = Ok v -> dict_str v = true).
Proof.
  split; [ | split; [ | split; [ | split]]].
  - unfold ui_dashboard. cbv zeta.
    destruct (len (fetch_users client)) as [n | e]; [ | discriminate].
    destruct (count_users truthy "email_verified" (fetch_users client)) as [k | e];
      [ | discriminate].
    destruct (if truthy (fetch_users client) then slice5 (fetch_users client) else Ok [])
      as [r | e]; [ | discriminate].
    cbn [bind]. unfold get_dashboard_spec.
    destruct (verified_change n k) as [c | e]; [ | discriminate].
    cbn [bind]. intros H. injection H as <-. reflexivity.
  - unfold ui_users. intros H. injection H as <-. reflexivity.
  - intros H.
    destruct (ui_user_edit_returns_only_fetched py_str client id v H)
      as (response & user & _ & _ & _ & -> & _).
    reflexivity.
  - unfold api_stats. cbv zeta.
    destruct (len (fetch_users client)) as [n | e]; [ | discriminate].
    destruct (count_users truthy "email_verified" (fetch_users client)) as [k | e];
      [ | discriminate].
    destruct (count_users (fun x => negb (truthy x)) "email_verified" (fetch_users client))
      as [u | e]; [ | discriminate].
    destruct (count_users truthy "two_factor_enabled" (fetch_users client)) as [t | e];
      [ | discriminate].
    cbn [bind]. intros H. injection H as <-. reflexivity.
  - unfold api_delete_user, validated.
    destruct (try_except _ _ _) as [x | e]; [ | discriminate].
    destruct (dict_str x) eqn:F; [ | discriminate].
    intros H. injection H as <-. exact F.
Qed.
